(** * fitness-tracker-app: the view-model computed by [index] in app.py

    The route handler [index] of app.py reads the calorie goal and the last
    thirty rows of [fitness_entries], then
    - writes a ["status"] into every row (lines 136-147),
    - builds four chart series from the rows, oldest first (lines 150-167),
    - builds the per-day over-goal flags (lines 169-174).
    The handlers [add_entry] and [set_goal] validate a form and write to the
    store.  This file embeds those pieces and proves the properties the
    specification states about them.

    Rows are Python dicts keyed by column name; they are modelled as finite
    maps from strings to Python values.  Python exceptions are modelled by
    the [result] type. *)

From Stdlib Require Import ZArith String Ascii List Bool Lia SpecFloat Sorted.
From stdpp Require Import base option list gmap strings pretty.

Local Open Scope string_scope.
Local Open Scope Z_scope.

(** ** Exceptions *)

Inductive pyexc : Type :=
| KeyError (key : string)
| TypeError
| ValueError
| OverflowError.

Inductive result (A : Type) : Type :=
| Ok (a : A)
| Raise (e : pyexc).

Arguments Ok {A} a.
Arguments Raise {A} e.

#[global] Instance result_ret : MRet result := fun A a => Ok a.

#[global] Instance result_bind : MBind result := fun A B f m =>
  match m with
  | Ok a => f a
  | Raise e => Raise e
  end.

#[global] Instance result_fmap : FMap result := fun A B f m =>
  match m with
  | Ok a => Ok (f a)
  | Raise e => Raise e
  end.

(** A [for] loop that threads an accumulator and stops at the first
    exception. *)
Fixpoint for_each {A S : Type} (body : S -> A -> result S) (acc : S) (xs : list A)
  : result S :=
  match xs with
  | [] => Ok acc
  | x :: rest => acc' ← body acc x; for_each body acc' rest
  end.

(** ** Python values

    The values a row of [fitness_entries] can hold with the two drivers:
    - MySQL: [entry_date DATE] gives a [datetime.date], [weight DECIMAL(5,2)]
      a [Decimal] with two fractional digits, [calories INT] and [steps INT]
      an [int];
    - SQLite: [entry_date TEXT] gives a [str], [weight REAL] a [float],
      [calories INTEGER] and [steps INTEGER] an [int], or a [float] for a
      posted value with a fraction; a numeric column keeps the text it could
      not convert, so any of them can also hold a [str];
    - SQL NULL gives [None].
    A [float] is an IEEE-754 binary64 value, [spec_float] of the Standard
    Library.  [PyDecimal c] is the [Decimal] whose value is [c/100]. *)

Record date : Type := Date { year : Z; month : Z; day : Z }.

Inductive pyval : Type :=
| PyNone
| PyInt (n : Z)
| PyFloat (x : spec_float)
| PyDecimal (c : Z)
| PyStr (s : string)
| PyDate (d : date).

Definition prec : Z := 53.
Definition emax : Z := 1024.

(** [v is None] *)
Definition py_is_none (v : pyval) : bool :=
  match v with
  | PyNone => true
  | _ => false
  end.

(** Truth value of a Python object, as [or] and [not] test it. *)
Definition py_truthy (v : pyval) : bool :=
  match v with
  | PyNone => false
  | PyInt n => negb (n =? 0)
  | PyFloat (S754_zero _) => false
  | PyFloat _ => true
  | PyDecimal c => negb (c =? 0)
  | PyStr s => negb (String.eqb s "")
  | PyDate _ => true
  end.

(** [a or b] *)
Definition py_or (a b : pyval) : pyval := if py_truthy a then a else b.

(** [x > g] for a float [x] and an int [g]: Python compares the two exactly. *)
Definition float_gt_int (x : spec_float) (g : Z) : bool :=
  match x with
  | S754_nan => false
  | S754_infinity negative => negb negative
  | S754_zero _ => g <? 0
  | S754_finite negative m e =>
      let v := if negative then Z.neg m else Z.pos m in
      if 0 <=? e then g <? v * 2 ^ e else g * 2 ^ (- e) <? v
  end.

(** [v > g] where [g] is an int: numbers compare by value, anything else
    raises [TypeError]. *)
Definition py_gt_int (v : pyval) (g : Z) : result bool :=
  match v with
  | PyInt n => Ok (g <? n)
  | PyFloat x => Ok (float_gt_int x g)
  | PyDecimal c => Ok (100 * g <? c)
  | PyNone | PyStr _ | PyDate _ => Raise TypeError
  end.

(** [float(n)] for an int: the nearest double, [OverflowError] when there is
    none. *)
Definition float_of_int (n : Z) : result spec_float :=
  match binary_normalize prec emax n 0 false with
  | S754_infinity _ => Raise OverflowError
  | x => Ok x
  end.

(** [float(Decimal)] for a value [c/100] of a [DECIMAL(5,2)] column: the
    nearest double.  [c] and [100] are doubles, so the IEEE quotient is the
    correctly rounded [c/100]. *)
Definition float_of_decimal (c : Z) : spec_float :=
  SFdiv prec emax (binary_normalize prec emax c 0 false)
                  (binary_normalize prec emax 100 0 false).

(** ** Dates as text *)

Definition digit_char (k : Z) : ascii := ascii_of_N (48 + Z.to_N k).

(** [%m] and [%d]: two decimal digits. *)
Definition dec2 (n : Z) : string :=
  String (digit_char (n / 10 mod 10))
 (String (digit_char (n mod 10)) EmptyString).

(** [%Y]: four decimal digits. *)
Definition dec4 (n : Z) : string :=
  String (digit_char (n / 1000 mod 10))
 (String (digit_char (n / 100 mod 10)) (dec2 n)).

(** [d.strftime("%Y-%m-%d")].  The four digits of [%Y] are what every
    platform prints for the years 1000 to 9999. *)
Definition strftime_ymd (d : date) : string :=
  dec4 (year d) +:+ "-" +:+ dec2 (month d) +:+ "-" +:+ dec2 (day d).

(** [str(Decimal)] for a value with two fractional digits. *)
Definition str_of_decimal (c : Z) : string :=
  (if c <? 0 then "-" else "") +:+ pretty (Z.abs c / 100) +:+ "." +:+ dec2 (Z.abs c mod 100).

(** [str(datetime.date)] is the ISO form whatever the platform. *)
Definition isoformat (d : date) : string :=
  dec4 (year d) +:+ "-" +:+ dec2 (month d) +:+ "-" +:+ dec2 (day d).

(** ** Rows *)

(** [e.get(k)] *)
Definition dict_get (e : gmap string pyval) (k : string) : pyval :=
  default PyNone (e !! k).

(** [e[k]] *)
Definition dict_item (e : gmap string pyval) (k : string) : result pyval :=
  match e !! k with
  | Some v => Ok v
  | None => Raise (KeyError k)
  end.

(** The four lists [index] hands to the template. *)
Record chart : Type := Chart {
  chart_labels : list string;
  chart_weights : list pyval;
  chart_calories : list pyval;
  chart_steps : list pyval
}.

(** What [index] passes to [render_template]. *)
Record view : Type := View {
  view_entries : list (gmap string pyval);
  view_calorie_goal : option Z;
  view_over_goal_flags : gmap string bool;
  view_chart : chart
}.

Section Index.

(** Two conversions between floats and text are left to the interpreter:
    [float(s)] for a [str] ([None] when it raises [ValueError]) and
    [str(x)] for a [float]. *)
Variable float_of_str : string -> option spec_float.
Variable str_of_float : spec_float -> string.

(** [float(v)] *)
Definition py_float (v : pyval) : result spec_float :=
  match v with
  | PyFloat x => Ok x
  | PyInt n => float_of_int n
  | PyDecimal c => Ok (float_of_decimal c)
  | PyStr s =>
      match float_of_str s with
      | Some x => Ok x
      | None => Raise ValueError
      end
  | PyNone | PyDate _ => Raise TypeError
  end.

(** [str(v)] *)
Definition py_str (v : pyval) : string :=
  match v with
  | PyNone => "None"
  | PyInt n => pretty n
  | PyFloat x => str_of_float x
  | PyDecimal c => str_of_decimal c
  | PyStr s => s
  | PyDate d => isoformat d
  end.

(** Lines 158-162 and 171-172:
    [d.strftime("%Y-%m-%d") if isinstance(d, (datetime, date)) else str(d)].
    Of the values of a row only a [date] passes the [isinstance] test. *)
Definition date_label (d : pyval) : string :=
  match d with
  | PyDate dt => strftime_ymd dt
  | other => py_str other
  end.

(** *** Status (lines 136-147) *)

(** The body of the loop at lines 137-144: the status of one row when a
    goal is set. *)
Definition entry_status (calorie_goal : Z) (e : gmap string pyval) : result string :=
  let calories := dict_get e "calories" in
  if py_is_none calories then Ok "N/A"
  else
    over ← py_gt_int calories calorie_goal;
    Ok (if over : bool then "Over Goal" else "Within Goal").

(** The loop at lines 137-144: each row gets its ["status"] in turn; an
    exception leaves the loop. *)
Fixpoint annotate_against (calorie_goal : Z) (entries : list (gmap string pyval))
  : result (list (gmap string pyval)) :=
  match entries with
  | [] => Ok []
  | e :: rest =>
      status ← entry_status calorie_goal e;
      rest' ← annotate_against calorie_goal rest;
      Ok (<["status" := PyStr status]> e :: rest')
  end.

(** Lines 136-147.  The rows are fresh dicts, one per fetched row, so
    writing into one never changes another; the list after the loop is
    returned. *)
Definition annotate (entries : list (gmap string pyval)) (calorie_goal : option Z)
  : result (list (gmap string pyval)) :=
  match calorie_goal with
  | Some goal => annotate_against goal entries
  | None => Ok (map (fun e => <["status" := PyStr "N/A"]> e) entries)
  end.

(** *** Chart series (lines 150-167) *)

(** The body of the loop at lines 157-167: four appends. *)
Definition chart_append (acc : chart) (e : gmap string pyval) : result chart :=
  d ← dict_item e "entry_date";
  let label := date_label d in
  w ← dict_item e "weight";
  weight ← (if py_is_none w then Ok PyNone
            else w' ← dict_item e "weight"; PyFloat <$> py_float w');
  c ← dict_item e "calories";
  s ← dict_item e "steps";
  Ok {| chart_labels := chart_labels acc ++ [label];
        chart_weights := chart_weights acc ++ [weight];
        chart_calories := chart_calories acc ++ [py_or c (PyInt 0)];
        chart_steps := chart_steps acc ++ [py_or s (PyInt 0)] |}.

Definition build_chart_series (entries : list (gmap string pyval)) : result chart :=
  for_each chart_append (Chart [] [] [] []) (reverse entries).

(** *** Over-goal flags (lines 150, 169-174) *)

(** The body of the loop at lines 170-174. *)
Definition flag_update (calorie_goal : Z) (over_goal_flags : gmap string bool)
    (e : gmap string pyval) : result (gmap string bool) :=
  d ← dict_item e "entry_date";
  let key := date_label d in
  c ← dict_item e "calories";
  is_over ← (if py_is_none c then Ok false
             else c' ← dict_item e "calories"; py_gt_int c' calorie_goal);
  Ok (<[key := default false (over_goal_flags !! key) || is_over]> over_goal_flags).

Definition build_over_goal_flags (entries : list (gmap string pyval))
    (calorie_goal : option Z) : result (gmap string bool) :=
  match calorie_goal with
  | Some goal => for_each (flag_update goal) ∅ entries
  | None => Ok ∅
  end.

(** *** Lines 136-185 as a whole *)

Definition index_core (entries : list (gmap string pyval)) (calorie_goal : option Z)
  : result view :=
  entries' ← annotate entries calorie_goal;
  series ← build_chart_series entries';
  flags ← build_over_goal_flags entries' calorie_goal;
  Ok {| view_entries := entries';
        view_calorie_goal := calorie_goal;
        view_over_goal_flags := flags;
        view_chart := series |}.

(** *** What one row contributes *)

(** The label of a row, for the chart and for the flags. *)
Definition entry_label (e : gmap string pyval) : string :=
  date_label (dict_get e "entry_date").

End Index.

(** ** The form handlers (lines 188-263) *)

(** A flashed message with its category, and the redirect that ends both
    handlers. *)
Record response : Type := Response {
  flashed : list (string * string);
  location : string
}.

(** [redirect(url_for("index"))]: [index] is routed at ["/"]. *)
Definition redirect_index (messages : list (string * string)) : response :=
  {| flashed := messages; location := "/" |}.

(** [not v] for a form value that may be missing. *)
Definition form_blank (v : option string) : bool :=
  match v with
  | None => true
  | Some s => String.eqb s ""
  end.

(** [request.form.get(k) or None] *)
Definition form_or_none (v : option string) : option string :=
  if form_blank v then None else v.

(** What a write to the store comes to: the committed contents, or the
    exception the driver raised, with what the store holds after it. *)
Inductive outcome (db : Type) : Type :=
| Committed (contents : db)
| Failed (message : string) (contents : db).

Arguments Committed {db} contents.
Arguments Failed {db} message contents.

Section Handlers.

(** The store is an external collaborator.  [insert_entry] stands for lines
    201-223 (connect, INSERT, commit, close) and [replace_goal] for lines
    240-258 (connect, DELETE, INSERT, commit, close). *)
Variable db : Type.
Variable insert_entry :
  string -> option string -> option string -> option string -> db -> outcome db.
Variable replace_goal : string -> db -> outcome db.

(** Lines 189-228. *)
Definition add_entry (form : gmap string string) (store : db) : db * response :=
  let entry_date := form !! "date" in
  let weight := form_or_none (form !! "weight") in
  let calories := form_or_none (form !! "calories") in
  let steps := form_or_none (form !! "steps") in
  match entry_date with
  | Some d =>
      if String.eqb d "" then
        (store, redirect_index [("Date is required.", "error")])
      else
        match insert_entry d weight calories steps store with
        | Committed store' =>
            (store', redirect_index [("Entry added.", "success")])
        | Failed msg store' =>
            (store', redirect_index [("Error adding entry: " +:+ msg, "error")])
        end
  | None => (store, redirect_index [("Date is required.", "error")])
  end.

(** Lines 232-263. *)
Definition set_goal (form : gmap string string) (store : db) : db * response :=
  match form !! "calorie_goal" with
  | Some goal =>
      if String.eqb goal "" then
        (store, redirect_index [("Calorie goal cannot be empty.", "error")])
      else
        match replace_goal goal store with
        | Committed store' =>
            (store', redirect_index [("Calorie goal updated.", "success")])
        | Failed msg store' =>
            (store', redirect_index [("Error updating goal: " +:+ msg, "error")])
        end
  | None => (store, redirect_index [("Calorie goal cannot be empty.", "error")])
  end.

End Handlers.

(** ** The specification's vocabulary *)

(** Month and day as [datetime.date] accepts them. *)
Definition is_leap (y : Z) : bool :=
  (y mod 4 =? 0) && (negb (y mod 100 =? 0) || (y mod 400 =? 0)).

Definition days_in_month (y m : Z) : Z :=
  if m =? 2 then (if is_leap y then 29 else 28)
  else if (m =? 4) || (m =? 6) || (m =? 9) || (m =? 11) then 30
  else 31.

Definition month_day_ok (d : date) : bool :=
  (1 <=? month d) && (month d <=? 12) &&
  (1 <=? day d) && (day d <=? days_in_month (year d) (month d)).

(** A date a [DATE] column of MySQL holds: years 1000 to 9999.  (Below 1000
    the text [%Y] gives depends on the C library.) *)
Definition calendar_date (d : date) : bool :=
  (1000 <=? year d) && (year d <=? 9999) && month_day_ok d.

(** Reading a string as [YYYY-MM-DD]: exactly ten characters, digits and
    two dashes, with a month and a day that exist. *)
Definition digit_value (c : ascii) : option Z :=
  let n := Z.of_N (N_of_ascii c) in
  if (48 <=? n) && (n <=? 57) then Some (n - 48) else None.

Definition parse_iso_date (s : string) : option date :=
  match s with
  | String y1 (String y2 (String y3 (String y4 (String dash1
   (String m1 (String m2 (String dash2
   (String d1 (String d2 EmptyString))))))))) =>
      if Ascii.eqb dash1 "-" && Ascii.eqb dash2 "-" then
        a ← digit_value y1; b ← digit_value y2;
        c ← digit_value y3; d ← digit_value y4;
        e ← digit_value m1; f ← digit_value m2;
        g ← digit_value d1; h ← digit_value d2;
        let dt := Date (1000 * a + 100 * b + 10 * c + d) (10 * e + f) (10 * g + h) in
        if month_day_ok dt then Some dt else None
      else None
  | _ => None
  end.

(** The three statuses. *)
Definition status_of (e : gmap string pyval) : option string :=
  match e !! "status" with
  | Some (PyStr s) => Some s
  | _ => None
  end.

(** Field values of the documented input domain. *)
Definition int_or_none (v : pyval) : bool :=
  match v with
  | PyNone | PyInt _ => true
  | _ => false
  end.

Definition number_or_none (v : pyval) : bool :=
  match v with
  | PyNone | PyInt _ | PyFloat _ | PyDecimal _ => true
  | _ => false
  end.

Definition weight_or_none (v : pyval) : bool :=
  match v with
  | PyNone | PyFloat _ | PyDecimal _ => true
  | _ => false
  end.

Definition date_or_text (v : pyval) : bool :=
  match v with
  | PyDate _ | PyStr _ => true
  | _ => false
  end.

(** A row as [SELECT entry_date, weight, calories, steps] returns it, every
    field absent or a number. *)
Definition valid_entry (e : gmap string pyval) : bool :=
  match e !! "entry_date", e !! "weight", e !! "calories", e !! "steps" with
  | Some d, Some w, Some c, Some s =>
      date_or_text d && weight_or_none w && number_or_none c && number_or_none s
  | _, _, _, _ => false
  end.

(** The status the specification gives a row, from the goal and the row's
    calories. *)
Definition expected_status (calorie_goal : option Z) (calories : pyval) : string :=
  match calorie_goal, calories with
  | Some g, PyInt c => if g <? c then "Over Goal" else "Within Goal"
  | Some g, PyFloat x => if float_gt_int x g then "Over Goal" else "Within Goal"
  | Some g, PyDecimal c => if 100 * g <? c then "Over Goal" else "Within Goal"
  | _, _ => "N/A"
  end.

(** [calories is set AND calories > goal] *)
Definition over_goal (calorie_goal : Z) (calories : pyval) : bool :=
  match calories with
  | PyInt c => calorie_goal <? c
  | PyFloat x => float_gt_int x calorie_goal
  | PyDecimal c => 100 * calorie_goal <? c
  | _ => false
  end.

(** The OR of [is_over] over the rows labelled [k]. *)
Definition any_over (str_of_float : spec_float -> string) (g : Z) (k : string)
    (entries : list (gmap string pyval)) : bool :=
  existsb (fun e => String.eqb (entry_label str_of_float e) k
                    && over_goal g (dict_get e "calories")) entries.

(** The weight a row contributes to the chart: the number as a float, or
    [None] for a missing weight. *)
Definition weight_point (weight : pyval) : pyval :=
  match weight with
  | PyFloat x => PyFloat x
  | PyDecimal c => PyFloat (float_of_decimal c)
  | _ => PyNone
  end.

(** Rows the chart loop and the flags loop run through without an
    exception. *)
Definition chart_ready (e : gmap string pyval) : bool :=
  match e !! "entry_date", e !! "weight", e !! "calories", e !! "steps" with
  | Some _, Some w, Some _, Some _ => weight_or_none w
  | _, _, _, _ => false
  end.

Definition flag_ready (e : gmap string pyval) : bool :=
  match e !! "entry_date", e !! "calories" with
  | Some _, Some c => number_or_none c
  | _, _ => false
  end.

(** ** Sample data *)

(** [dict(row)] for a fetched row. *)
Definition row (entry_date weight calories steps : pyval) : gmap string pyval :=
  {[ "entry_date" := entry_date; "weight" := weight;
     "calories" := calories; "steps" := steps ]}.

(** The specification's example: three days against a goal of 2000. *)
Definition sample_entries : list (gmap string pyval) :=
  [ row (PyDate (Date 2024 1 3)) (PyDecimal 7010) (PyInt 2200) (PyInt 9000);
    row (PyDate (Date 2024 1 2)) PyNone (PyInt 1800) PyNone;
    row (PyDate (Date 2024 1 1)) (PyDecimal 7050) PyNone (PyInt 0) ].

(** Two rows of one day, one over and one under the goal. *)
Definition same_day_entries : list (gmap string pyval) :=
  [ row (PyDate (Date 2024 2 1)) PyNone (PyInt 2500) PyNone;
    row (PyDate (Date 2024 2 1)) PyNone (PyInt 1000) PyNone ].

(** A row as the SQLite store returns it after [POST /add] with
    [date=2024-1-5]: the date is the text that was posted. *)
Definition text_date_entry : gmap string pyval :=
  row (PyStr "2024-1-5") PyNone (PyInt 1800) PyNone.

(** A day without food: calories recorded as 0. *)
Definition fasting_entry : gmap string pyval :=
  row (PyDate (Date 2024 3 1)) (PyFloat (S754_zero false)) (PyInt 0) (PyInt 0).

(** The sample rows hold no text in a weight and no float in a date, so
    the two conversions left open are never called on them. *)
Definition sample_float_of_str (s : string) : option spec_float := None.
Definition sample_str_of_float (x : spec_float) : string := "".

(** A store for trying the handlers: the inserted rows, newest first, and
    the goal as stored. *)
Definition sample_db : Type :=
  list (string * option string * option string * option string) * option string.

Definition sample_insert_entry (d : string) (w c s : option string) (store : sample_db)
  : outcome sample_db :=
  Committed ((d, w, c, s) :: fst store, snd store).

Definition sample_replace_goal (goal : string) (store : sample_db) : outcome sample_db :=
  Committed (fst store, Some goal).

(** ** More vocabulary for the loops *)

(** The weight the chart loop appends for a stored value, whenever
    [float] accepts it. *)
Definition weight_value (float_of_str : string -> option spec_float) (w : pyval) : pyval :=
  if py_is_none w then PyNone
  else match py_float float_of_str w with
       | Ok x => PyFloat x
       | Raise _ => PyNone
       end.

(** Rows the chart loop gets through: the four columns are there and the
    weight is [None] or something [float] accepts. *)
Definition chart_convertible (float_of_str : string -> option spec_float)
    (e : gmap string pyval) : bool :=
  match e !! "entry_date", e !! "weight", e !! "calories", e !! "steps" with
  | Some _, Some w, Some _, Some _ =>
      py_is_none w ||
      match py_float float_of_str w with
      | Ok _ => true
      | Raise _ => false
      end
  | _, _, _, _ => false
  end.

(** ** The database connection and the pages (lines 12-35, 93-130, 266-274) *)

(** An exception of the store, by the class the [except] clauses of
    [index] tell apart ([mysql.connector.Error], or any other exception),
    with the text [str(e)] gives. *)
Inductive exn_class : Type :=
| MySQLError
| OtherException.

Inductive attempt (A : Type) : Type :=
| Done (a : A)
| Thrown (class : exn_class) (message : string).

Arguments Done {A} a.
Arguments Thrown {A} class message.

(** Line 13: [os.getenv("LOCAL_DEV") == "1"], read once when the module is
    loaded. *)
Definition USE_SQLITE (environ : gmap string string) : bool :=
  match environ !! "LOCAL_DEV" with
  | Some v => String.eqb v "1"
  | None => false
  end.

(** Lines 23-28: the dict [config], in the order of its keys. *)
Definition db_config (environ : gmap string string) : list (string * option string) :=
  [ ("host", environ !! "DB_HOST");
    ("user", environ !! "DB_USER");
    ("password", environ !! "DB_PASSWORD");
    ("database", environ !! "DB_NAME") ].

(** Line 29: [[k for k, v in config.items() if not v]] *)
Definition missing_config (config : list (string * option string)) : list string :=
  map fst (List.filter (fun kv => form_blank (snd kv)) config).

(** [sep.join(parts)] *)
Fixpoint str_join (sep : string) (parts : list string) : string :=
  match parts with
  | [] => ""
  | [p] => p
  | p :: rest => p +:+ sep +:+ str_join sep rest
  end.

(** Lines 31-34: the text of the [RuntimeError]. *)
Definition missing_config_message (missing : list string) : string :=
  "Missing DB config values: " +:+ str_join ", " missing +:+ ". "
  +:+ "Check environment variables DB_HOST, DB_USER, DB_PASSWORD, DB_NAME.".

(** What a view function returns to Flask: a rendered template, a body
    with a status code, or an exception it did not catch. *)
Inductive reply : Type :=
| Rendered (v : view)
| Plain (body : string) (status : Z)
| Uncaught (e : pyexc).

(** Lines 127-130: the two [except] clauses of [index]. *)
Definition error_reply (class : exn_class) (message : string) : reply :=
  match class with
  | MySQLError => Plain ("Database error: " +:+ message) 500
  | OtherException => Plain ("App error: " +:+ message) 500
  end.

Section Requests.

(** The two drivers and the interpreter, as far as the pages use them:
    - [sqlite3_connect] and [mysql_connect] open a connection;
    - [read_goal] is lines 98-105: the cursor, the query on [settings] and
      [fetchone], giving the text of the goal row if there is one;
    - [read_entries] is lines 111-125: the query on [fitness_entries],
      [fetchall], the conversion to dicts and [cur.close()];
    - [conn_close] is [conn.close()];
    - [int_of_str] is [int(s)] for a [str]: the int, or the text of the
      [ValueError]. *)
Variable conn : Type.
Variable sqlite3_connect : string -> attempt conn.
Variable mysql_connect : list (string * option string) -> attempt conn.
Variable read_goal : bool -> conn -> attempt (option string).
Variable read_entries : bool -> conn -> attempt (list (gmap string pyval)).
Variable conn_close : conn -> attempt unit.
Variable int_of_str : string -> Z + string.
Variable float_of_str : string -> option spec_float.
Variable str_of_float : spec_float -> string.

(** Lines 16-35.  [use_sqlite] is the module's [USE_SQLITE]. *)
Definition get_db_connection (use_sqlite : bool) (environ : gmap string string)
  : attempt conn :=
  if use_sqlite then sqlite3_connect "fitness_local.db"
  else
    let config := db_config environ in
    let missing := missing_config config in
    match missing with
    | [] => mysql_connect config
    | _ :: _ => Thrown OtherException (missing_config_message missing)
    end.

(** Lines 266-274. *)
Definition health (use_sqlite : bool) (environ : gmap string string) : string * Z :=
  match get_db_connection use_sqlite environ with
  | Done c =>
      match conn_close c with
      | Done _ => ("OK", 200)
      | Thrown _ _ => ("DB error", 500)
      end
  | Thrown _ _ => ("DB error", 500)
  end.

(** Line 108: [int(row["value"]) if row else None] *)
Definition goal_of_row (row : option string) : option Z + string :=
  match row with
  | Some value =>
      match int_of_str value with
      | inl n => inl (Some n)
      | inr message => inr message
      end
  | None => inl None
  end.

(** Lines 93-185.  The reads are inside the [try]; the three loops and the
    template are after it. *)
Definition index (use_sqlite : bool) (environ : gmap string string) : reply :=
  match get_db_connection use_sqlite environ with
  | Thrown class message => error_reply class message
  | Done c =>
      match read_goal use_sqlite c with
      | Thrown class message => error_reply class message
      | Done row =>
          match goal_of_row row with
          | inr message => error_reply OtherException message
          | inl calorie_goal =>
              match read_entries use_sqlite c with
              | Thrown class message => error_reply class message
              | Done entries =>
                  match conn_close c with
                  | Thrown class message => error_reply class message
                  | Done _ =>
                      match index_core float_of_str str_of_float entries calorie_goal with
                      | Ok v => Rendered v
                      | Raise e => Uncaught e
                      end
                  end
              end
          end
      end
  end.

End Requests.

(** ** The local store (LOCAL_DEV=1)

    The two tables of the SQLite schema (lines 45-64) and the five
    statements the handlers run on them, as functions on the rows.  The
    [id] of a settings row is never read and is left out. *)

Record entry_row : Type := EntryRow {
  row_id : Z;
  row_date : string;
  row_weight : pyval;
  row_calories : pyval;
  row_steps : pyval
}.

Record database : Type := Database {
  fitness_entries : list entry_row;
  settings : list (string * string)
}.

(** [INTEGER PRIMARY KEY AUTOINCREMENT] in a table no row is ever deleted
    from: one more than the largest id. *)
Definition next_id (rows : list entry_row) : Z :=
  1 + fold_right Z.max 0 (map row_id rows).

(** [ORDER BY entry_date DESC, id DESC]: [newer a b] when [a] comes
    strictly before [b].  The dates are text and compare byte by byte. *)
Definition newer (a b : entry_row) : bool :=
  String.ltb (row_date b) (row_date a)
  || (String.eqb (row_date a) (row_date b) && (row_id b <? row_id a)).

Fixpoint insert_newest (x : entry_row) (rows : list entry_row) : list entry_row :=
  match rows with
  | [] => [x]
  | h :: t => if newer x h then x :: h :: t else h :: insert_newest x t
  end.

Definition sort_newest (rows : list entry_row) : list entry_row :=
  fold_right insert_newest [] rows.

(** [dict(e)] for a fetched row of [SELECT entry_date, weight, calories,
    steps]. *)
Definition entry_dict (r : entry_row) : gmap string pyval :=
  row (PyStr (row_date r)) (row_weight r) (row_calories r) (row_steps r).

(** Lines 111-123: at most thirty rows, the newest first. *)
Definition select_recent_entries (db : database) : list (gmap string pyval) :=
  map entry_dict (take 30 (sort_newest (fitness_entries db))).

(** Line 104-105: [SELECT value FROM settings WHERE name = 'calorie_goal']
    and [fetchone]. *)
Definition select_goal (db : database) : option string :=
  snd <$> head (List.filter (fun kv => String.eqb (fst kv) "calorie_goal") (settings db)).

(** Lines 243-249: [DELETE FROM settings WHERE name = 'calorie_goal'], then
    [INSERT INTO settings (name, value)]. *)
Definition replace_goal_row (goal : string) (db : database) : database :=
  {| fitness_entries := fitness_entries db;
     settings :=
       List.filter (fun kv => negb (String.eqb (fst kv) "calorie_goal")) (settings db)
       ++ [("calorie_goal", goal)] |}.

Section LocalStore.

(** What SQLite keeps in a [REAL] and in an [INTEGER] column for a text
    bound to it: the number the text spells, or the text itself. *)
Variable real_affinity : string -> pyval.
Variable integer_affinity : string -> pyval.

Definition stored_cell (affinity : string -> pyval) (v : option string) : pyval :=
  match v with
  | Some text => affinity text
  | None => PyNone
  end.

(** Lines 205-211: [INSERT INTO fitness_entries (entry_date, weight,
    calories, steps)]. *)
Definition insert_entry_row (entry_date : string) (weight calories steps : option string)
    (db : database) : database :=
  {| fitness_entries :=
       fitness_entries db
       ++ [ {| row_id := next_id (fitness_entries db);
               row_date := entry_date;
               row_weight := stored_cell real_affinity weight;
               row_calories := stored_cell integer_affinity calories;
               row_steps := stored_cell integer_affinity steps |} ];
     settings := settings db |}.

(** [POST /add] and [POST /set_goal] on a local store that can be opened
    and written. *)
Definition local_add_entry (form : gmap string string) (db : database)
  : database * response :=
  add_entry database
    (fun d w c s store => Committed (insert_entry_row d w c s store)) form db.

Definition local_set_goal (form : gmap string string) (db : database)
  : database * response :=
  set_goal database (fun goal store => Committed (replace_goal_row goal store)) form db.

(** [GET /] on such a store. *)
Definition local_index (int_of_str : string -> Z + string)
    (float_of_str : string -> option spec_float) (str_of_float : spec_float -> string)
    (db : database) : reply :=
  index database
    (fun _ => Done db)
    (fun _ => Thrown OtherException "")
    (fun _ c => Done (select_goal c))
    (fun _ c => Done (select_recent_entries c))
    (fun _ => Done tt)
    int_of_str float_of_str str_of_float true ∅.

End LocalStore.

(** ** Sample store *)

(** [int] on a text of plain decimal digits; the samples need no more of
    it. *)
Fixpoint digits_value (acc : Z) (s : string) : option Z :=
  match s with
  | EmptyString => Some acc
  | String c rest =>
      match digit_value c with
      | Some k => digits_value (10 * acc + k) rest
      | None => None
      end
  end.

Definition sample_int_of_str (s : string) : Z + string :=
  match s, digits_value 0 s with
  | String _ _, Some n => inl n
  | _, _ => inr ("invalid literal for int() with base 10: " +:+ s)
  end.

(** The cells SQLite keeps for a posted text, for texts of plain digits
    and for texts that spell no number. *)
Definition sample_integer_affinity (s : string) : pyval :=
  match sample_int_of_str s with
  | inl n => PyInt n
  | inr _ => PyStr s
  end.

Definition sample_real_affinity (s : string) : pyval :=
  match sample_int_of_str s with
  | inl n => PyFloat (binary_normalize prec emax n 0 false)
  | inr _ => PyStr s
  end.

(** Two days stored, and a goal of 2000. *)
Definition sample_store : database :=
  {| fitness_entries :=
       [ EntryRow 1 "2024-01-02" PyNone (PyInt 1800) PyNone;
         EntryRow 2 "2024-01-03" (PyFloat (S754_zero false)) (PyInt 2200) (PyInt 9000) ];
     settings := [("calorie_goal", "2000")] |}.

(** The same days with calories kept as text in one row. *)
Definition sample_store_text : database :=
  {| fitness_entries :=
       [ EntryRow 1 "2024-01-02" PyNone (PyStr "many") PyNone;
         EntryRow 2 "2024-01-03" PyNone (PyInt 2200) PyNone ];
     settings := [("calorie_goal", "2000")] |}.

(** The same rows before any goal was posted. *)
Definition sample_store_no_goal : database :=
  {| fitness_entries := fitness_entries sample_store_text; settings := [] |}.

(** * Proofs *)

(** ** The status loop *)

Lemma dict_get_insert_ne (e : gmap string pyval) (k k' : string) (v : pyval) :
  k ≠ k' -> dict_get (<[k := v]> e) k' = dict_get e k'.
Proof. intros Hne. unfold dict_get. by rewrite lookup_insert_ne. Qed.

Lemma entry_status_number (g : Z) (e : gmap string pyval) :
  number_or_none (dict_get e "calories") = true ->
  entry_status g e = Ok (expected_status (Some g) (dict_get e "calories")).
Proof.
  unfold entry_status. destruct (dict_get e "calories"); simpl; try done.
Qed.

Lemma entry_status_insert_status (g : Z) (e : gmap string pyval) (v : pyval) :
  entry_status g (<["status" := v]> e) = entry_status g e.
Proof. unfold entry_status. by rewrite dict_get_insert_ne. Qed.

Lemma annotate_number (entries : list (gmap string pyval)) (goal : option Z) :
  Forall (fun e => number_or_none (dict_get e "calories") = true) entries ->
  annotate entries goal =
  Ok (map (fun e => <["status" := PyStr (expected_status goal (dict_get e "calories"))]> e)
          entries).
Proof.
  destruct goal as [g|]; simpl; [|done].
  induction 1 as [|e rest He _ IH]; simpl; [done|].
  rewrite (entry_status_number g e He). simpl. rewrite IH. done.
Qed.

Lemma annotate_against_fixed (g : Z) (entries out : list (gmap string pyval)) :
  annotate_against g entries = Ok out -> annotate_against g out = Ok out.
Proof.
  revert out. induction entries as [|e rest IH]; intros out; simpl.
  - by intros [= <-].
  - destruct (entry_status g e) as [st|] eqn:Hst; simpl; [|done].
    destruct (annotate_against g rest) as [rest'|] eqn:Hrest; simpl; [|done].
    intros [= <-]. simpl.
    rewrite entry_status_insert_status, Hst. simpl.
    rewrite (IH rest' eq_refl). simpl.
    by rewrite insert_insert_eq.
Qed.

(** C1.  For rows whose calories are an int or unset, the status loop gives
    every row, in place, a status that is ["N/A"] exactly when the goal or
    the calories are unset, ["Over Goal"] exactly when calories > goal, and
    ["Within Goal"] exactly when calories <= goal. *)
Theorem annotate_status_invariant
    (entries : list (gmap string pyval)) (goal : option Z) :
  Forall (fun e => int_or_none (dict_get e "calories") = true) entries ->
  exists out,
    annotate entries goal = Ok out /\
    Forall2 (fun e e' =>
      exists st, status_of e' = Some st /\
        (st = "N/A" <-> goal = None \/ dict_get e "calories" = PyNone) /\
        (forall g c, goal = Some g -> dict_get e "calories" = PyInt c ->
           (st = "Over Goal" <-> c > g) /\ (st = "Within Goal" <-> c <= g)))
      entries out.
Proof.
  intros Hdom. eexists. split.
  - apply annotate_number. eapply Forall_impl; [exact Hdom|].
    intros e; simpl. by destruct (dict_get e "calories").
  - apply Forall2_fmap_r, Forall_Forall2_diag.
    eapply Forall_impl; [exact Hdom|]. intros e He; simpl in *.
    eexists. split.
    { unfold status_of. by rewrite lookup_insert_eq. }
    destruct goal as [g|], (dict_get e "calories") as [|c| | | |] eqn:Hc;
      simpl in *; try done.
    + split; [split; [auto|done]|]. intros ? ? _ [=].
    + split.
      * split; [|intros [[=]|[=]]]. by destruct (g <? c).
      * intros g' c' [= <-] [= <-].
        destruct (Z.ltb_spec g c); (split; split; intros; try done; lia).
    + split; [split; auto|]. intros ? ? [=].
    + split; [split; auto|]. intros ? ? [=].
Qed.

(** C10.  A row whose calories are present and 0 is compared with the goal
    like any other number: its status is ["Within Goal"] when the goal is
    at least 0 (["Over Goal"] below that) and never ["N/A"], although 0 is
    a false value. *)
Theorem annotate_zero_calories
    (entries : list (gmap string pyval)) (g : Z) (i : nat) (e : gmap string pyval) :
  Forall (fun e => number_or_none (dict_get e "calories") = true) entries ->
  entries !! i = Some e ->
  e !! "calories" = Some (PyInt 0) ->
  exists out e',
    annotate entries (Some g) = Ok out /\
    out !! i = Some e' /\
    status_of e' = Some (if g <? 0 then "Over Goal" else "Within Goal") /\
    status_of e' <> Some "N/A" /\
    (0 <= g -> status_of e' = Some "Within Goal") /\
    py_truthy (PyInt 0) = false.
Proof.
  intros Hdom Hi Hc.
  rewrite (annotate_number entries (Some g) Hdom).
  eexists. eexists. split; [done|]. split.
  { rewrite list_lookup_fmap, Hi. done. }
  assert (Hget : dict_get e "calories" = PyInt 0) by (unfold dict_get; by rewrite Hc).
  unfold status_of. rewrite lookup_insert_eq, Hget. simpl.
  repeat split.
  - by destruct (g <? 0).
  - intros Hg. destruct (Z.ltb_spec g 0); [lia|done].
Qed.

(** C6.  The status loop keeps the rows in their places: the output has
    the input's length, and the row at each index is the input row with
    the key ["status"] written, every other key (entry_date, weight,
    calories, steps) unchanged. *)
Theorem annotate_frame
    (entries : list (gmap string pyval)) (goal : option Z) :
  Forall (fun e => number_or_none (dict_get e "calories") = true) entries ->
  exists out,
    annotate entries goal = Ok out /\
    length out = length entries /\
    forall i e, entries !! i = Some e ->
      exists e',
        out !! i = Some e' /\
        (forall k, k <> "status" -> e' !! k = e !! k) /\
        dom e' = dom e ∪ {["status"]} /\
        is_Some (status_of e').
Proof.
  intros Hdom. rewrite (annotate_number entries goal Hdom).
  eexists. split; [done|]. split; [by rewrite length_map|].
  intros i e Hi. eexists. split.
  { rewrite list_lookup_fmap, Hi. done. }
  split; [|split].
  - intros k Hk. by rewrite lookup_insert_ne.
  - rewrite dom_insert_L. apply (comm_L (∪)).
  - unfold status_of. rewrite lookup_insert_eq. eauto.
Qed.

(** C8.  Running the status loop on its own output changes nothing: the
    second run returns what the first returned (and an exception of the
    first run is the outcome of both). *)
Theorem annotate_idempotent
    (entries : list (gmap string pyval)) (goal : option Z) :
  annotate entries goal ≫= (fun out => annotate out goal) = annotate entries goal.
Proof.
  destruct goal as [g|]; simpl.
  - destruct (annotate_against g entries) as [out|] eqn:Hout; simpl; [|done].
    by apply annotate_against_fixed in Hout.
  - f_equal. rewrite map_map. apply map_ext. intros e.
    by rewrite insert_insert_eq.
Qed.

(** ** Dates as text *)

Lemma digit_value_char (k : Z) :
  0 <= k < 10 -> digit_value (digit_char k) = Some k.
Proof.
  intros Hk.
  assert (k = 0 \/ k = 1 \/ k = 2 \/ k = 3 \/ k = 4 \/
          k = 5 \/ k = 6 \/ k = 7 \/ k = 8 \/ k = 9) as Hcase by lia.
  repeat (destruct Hcase as [-> | Hcase]; [reflexivity|]). by subst k.
Qed.

Lemma days_in_month_le (y m : Z) : days_in_month y m <= 31.
Proof.
  unfold days_in_month.
  repeat match goal with |- context [if ?b then _ else _] => destruct b end; lia.
Qed.

Lemma strftime_ymd_parse (d : date) :
  calendar_date d = true -> parse_iso_date (strftime_ymd d) = Some d.
Proof.
  destruct d as [y m dd]. unfold calendar_date; simpl. intros Hd.
  apply andb_prop in Hd as [Hy Hmd]. apply andb_prop in Hy as [Hy1 Hy2].
  assert (Hmd' := Hmd). unfold month_day_ok in Hmd'; simpl in Hmd'.
  repeat (apply andb_prop in Hmd' as [Hmd' ?]).
  pose proof (days_in_month_le y m).
  assert (Ey : y = 1000 * (y / 1000 mod 10) + 100 * (y / 100 mod 10)
                   + 10 * (y / 10 mod 10) + y mod 10).
  { Z.div_mod_to_equations. lia. }
  assert (Em : m = 10 * (m / 10 mod 10) + m mod 10).
  { Z.div_mod_to_equations. lia. }
  assert (Ed : dd = 10 * (dd / 10 mod 10) + dd mod 10).
  { Z.div_mod_to_equations. lia. }
  unfold strftime_ymd, dec4, dec2; simpl.
  rewrite !digit_value_char by (apply Z.mod_pos_bound; lia). simpl.
  rewrite <- Ey, <- Em, <- Ed. by rewrite Hmd.
Qed.

Section IndexProofs.

Variable float_of_str : string -> option spec_float.
Variable str_of_float : spec_float -> string.

(** ** The chart loop *)

Lemma chart_append_ready (acc : chart) (e : gmap string pyval) :
  chart_ready e = true ->
  chart_append float_of_str str_of_float acc e =
  Ok {| chart_labels := chart_labels acc ++ [entry_label str_of_float e];
        chart_weights := chart_weights acc ++ [weight_point (dict_get e "weight")];
        chart_calories := chart_calories acc ++ [py_or (dict_get e "calories") (PyInt 0)];
        chart_steps := chart_steps acc ++ [py_or (dict_get e "steps") (PyInt 0)] |}.
Proof.
  unfold chart_ready, chart_append, entry_label, dict_item, dict_get.
  destruct (e !! "entry_date") as [d|]; [|done].
  destruct (e !! "weight") as [w|]; [|done].
  destruct (e !! "calories") as [c|]; [|done].
  destruct (e !! "steps") as [s|]; [|done].
  by destruct w.
Qed.

Lemma for_each_chart_append (entries : list (gmap string pyval)) (acc : chart) :
  Forall (fun e => chart_ready e = true) entries ->
  for_each (chart_append float_of_str str_of_float) acc entries =
  Ok {| chart_labels := chart_labels acc ++ map (entry_label str_of_float) entries;
        chart_weights :=
          chart_weights acc ++ map (fun e => weight_point (dict_get e "weight")) entries;
        chart_calories :=
          chart_calories acc ++ map (fun e => py_or (dict_get e "calories") (PyInt 0)) entries;
        chart_steps :=
          chart_steps acc ++ map (fun e => py_or (dict_get e "steps") (PyInt 0)) entries |}.
Proof.
  intros Hready. revert acc.
  induction Hready as [|e rest He _ IH]; intros acc; simpl.
  - rewrite !app_nil_r. by destruct acc.
  - rewrite (chart_append_ready acc e He). simpl.
    rewrite IH. simpl. by rewrite <- !app_assoc.
Qed.

Lemma build_chart_series_ready (entries : list (gmap string pyval)) :
  Forall (fun e => chart_ready e = true) entries ->
  build_chart_series float_of_str str_of_float entries =
  Ok {| chart_labels := map (entry_label str_of_float) (reverse entries);
        chart_weights := map (fun e => weight_point (dict_get e "weight")) (reverse entries);
        chart_calories :=
          map (fun e => py_or (dict_get e "calories") (PyInt 0)) (reverse entries);
        chart_steps :=
          map (fun e => py_or (dict_get e "steps") (PyInt 0)) (reverse entries) |}.
Proof.
  intros Hready. unfold build_chart_series.
  rewrite for_each_chart_append; [done|]. by apply Forall_reverse.
Qed.

Lemma py_or_int (n : Z) : py_or (PyInt n) (PyInt 0) = PyInt n.
Proof.
  unfold py_or; simpl. destruct (Z.eqb_spec n 0) as [->|]; done.
Qed.

(** C3.  The chart loop gives four lists as long as the list of rows, and
    each is the rows' contributions in reverse order: the row at index i
    of the input is at index len - 1 - i of every series, so index 0
    holds the last input row, the oldest. *)
Theorem build_chart_series_reversed (entries : list (gmap string pyval)) :
  Forall (fun e => chart_ready e = true) entries ->
  exists series,
    build_chart_series float_of_str str_of_float entries = Ok series /\
    (length (chart_labels series) = length entries /\
     length (chart_weights series) = length entries /\
     length (chart_calories series) = length entries /\
     length (chart_steps series) = length entries) /\
    (chart_labels series = reverse (map (entry_label str_of_float) entries) /\
     chart_weights series =
       reverse (map (fun e => weight_point (dict_get e "weight")) entries) /\
     chart_calories series =
       reverse (map (fun e => py_or (dict_get e "calories") (PyInt 0)) entries) /\
     chart_steps series =
       reverse (map (fun e => py_or (dict_get e "steps") (PyInt 0)) entries)) /\
    (forall oldest, last entries = Some oldest ->
       chart_labels series !! 0%nat = Some (entry_label str_of_float oldest) /\
       chart_weights series !! 0%nat = Some (weight_point (dict_get oldest "weight")) /\
       chart_calories series !! 0%nat = Some (py_or (dict_get oldest "calories") (PyInt 0)) /\
       chart_steps series !! 0%nat = Some (py_or (dict_get oldest "steps") (PyInt 0))).
Proof.
  intros Hready. rewrite (build_chart_series_ready entries Hready).
  eexists. split; [done|]. simpl. split; [|split].
  - by rewrite !length_map, !length_reverse.
  - by rewrite !fmap_reverse.
  - intros oldest Hlast.
    rewrite <- (reverse_involutive entries), last_reverse in Hlast.
    destruct (reverse entries) as [|e rest]; simplify_eq/=. done.
Qed.

(** C5.  In the chart a weight is the stored number as a float, and a
    missing weight is [None], which no float equals; missing calories and
    missing steps are the int 0, and stored ints are kept as they are. *)
Theorem build_chart_series_missing_values (entries : list (gmap string pyval)) :
  Forall (fun e => chart_ready e = true) entries ->
  exists series,
    build_chart_series float_of_str str_of_float entries = Ok series /\
    forall i e, reverse entries !! i = Some e ->
      (e !! "weight" = Some PyNone ->
         chart_weights series !! i = Some PyNone /\ forall x, PyNone <> PyFloat x) /\
      (forall x, e !! "weight" = Some (PyFloat x) ->
         chart_weights series !! i = Some (PyFloat x)) /\
      (forall c, e !! "weight" = Some (PyDecimal c) ->
         chart_weights series !! i = Some (PyFloat (float_of_decimal c))) /\
      (e !! "calories" = Some PyNone -> chart_calories series !! i = Some (PyInt 0)) /\
      (forall n, e !! "calories" = Some (PyInt n) ->
         chart_calories series !! i = Some (PyInt n)) /\
      (e !! "steps" = Some PyNone -> chart_steps series !! i = Some (PyInt 0)) /\
      (forall n, e !! "steps" = Some (PyInt n) ->
         chart_steps series !! i = Some (PyInt n)).
Proof.
  intros Hready. rewrite (build_chart_series_ready entries Hready).
  eexists. split; [done|]. simpl. intros i e Hi.
  rewrite !list_lookup_fmap, Hi. unfold dict_get. simpl.
  repeat split; try (intros; simplify_option_eq; by rewrite ?py_or_int).
Qed.

(** ** The flags loop *)

Lemma flag_update_ready (g : Z) (acc : gmap string bool) (e : gmap string pyval) :
  flag_ready e = true ->
  flag_update str_of_float g acc e =
  Ok (<[entry_label str_of_float e :=
          default false (acc !! entry_label str_of_float e)
          || over_goal g (dict_get e "calories")]> acc).
Proof.
  unfold flag_ready, flag_update, entry_label, dict_item, dict_get.
  destruct (e !! "entry_date") as [d|]; [|done].
  destruct (e !! "calories") as [c|]; [|done].
  destruct c; simpl; try done.
Qed.

Lemma any_over_not_elem (g : Z) (k : string) (entries : list (gmap string pyval)) :
  k ∉ map (entry_label str_of_float) entries -> any_over str_of_float g k entries = false.
Proof.
  induction entries as [|e rest IH]; simpl; [done|].
  intros Hk. apply not_elem_of_cons in Hk as [Hne Hrest].
  rewrite (IH Hrest), orb_false_r.
  destruct (String.eqb_spec (entry_label str_of_float e) k); [congruence|done].
Qed.

Lemma for_each_flag_update (g : Z) (entries : list (gmap string pyval))
    (acc : gmap string bool) :
  Forall (fun e => flag_ready e = true) entries ->
  exists flags,
    for_each (flag_update str_of_float g) acc entries = Ok flags /\
    forall k,
      flags !! k =
      if bool_decide (k ∈ map (entry_label str_of_float) entries)
      then Some (default false (acc !! k) || any_over str_of_float g k entries)
      else acc !! k.
Proof.
  intros Hready. revert acc.
  induction Hready as [|e rest He _ IH]; intros acc; simpl.
  - exists acc. by split.
  - rewrite (flag_update_ready g acc e He). simpl.
    destruct (IH (<[entry_label str_of_float e :=
                      default false (acc !! entry_label str_of_float e)
                      || over_goal g (dict_get e "calories")]> acc))
      as (flags & Hrun & Hflags).
    exists flags. split; [done|]. intros k. rewrite Hflags.
    destruct (String.eqb_spec (entry_label str_of_float e) k) as [->|Hne].
    + rewrite lookup_insert_eq; simpl.
      rewrite (bool_decide_eq_true_2 (k ∈ k :: _)) by apply list_elem_of_here.
      case_bool_decide as Hin.
      * by rewrite orb_assoc.
      * by rewrite (any_over_not_elem g k rest Hin), orb_false_r.
    + rewrite lookup_insert_ne by done. simpl.
      assert (bool_decide (k ∈ entry_label str_of_float e
                                :: map (entry_label str_of_float) rest)
              = bool_decide (k ∈ map (entry_label str_of_float) rest)) as ->.
      { apply bool_decide_ext. rewrite elem_of_cons.
        split; [intros [->|?]; done | by right]. }
      done.
Qed.

(** C2.  Without a goal the flags are the empty map.  With a goal, the
    flags map has exactly the labels of the rows as keys, and the flag of
    a label is the OR, over all rows with that label, of "calories is set
    and calories > goal": it is true exactly when some row of that day is
    over the goal. *)
Theorem build_over_goal_flags_or (entries : list (gmap string pyval)) :
  build_over_goal_flags str_of_float entries None = Ok ∅ /\
  forall g,
    Forall (fun e => flag_ready e = true) entries ->
    exists flags,
      build_over_goal_flags str_of_float entries (Some g) = Ok flags /\
      (forall k,
         flags !! k =
         if bool_decide (k ∈ map (entry_label str_of_float) entries)
         then Some (any_over str_of_float g k entries)
         else None) /\
      (forall k,
         flags !! k = Some true <->
         exists e, e ∈ entries /\ entry_label str_of_float e = k /\
                   dict_get e "calories" <> PyNone /\
                   over_goal g (dict_get e "calories") = true).
Proof.
  split; [done|]. intros g Hready. simpl.
  destruct (for_each_flag_update g entries ∅ Hready) as (flags & Hrun & Hflags).
  exists flags. split; [done|].
  assert (Hk : forall k,
    flags !! k =
    if bool_decide (k ∈ map (entry_label str_of_float) entries)
    then Some (any_over str_of_float g k entries) else None).
  { intros k. rewrite Hflags, lookup_empty. done. }
  split; [exact Hk|]. intros k. rewrite Hk. split.
  - case_bool_decide; [|done]. intros [= Hany].
    apply existsb_exists in Hany as (e & Hin & He).
    apply andb_prop in He as [Hlabel Hover].
    exists e. rewrite <- list_elem_of_In in Hin.
    apply String.eqb_eq in Hlabel.
    repeat split; try done.
    intros Hnone. by rewrite Hnone in Hover.
  - intros (e & Hin & Hlabel & _ & Hover).
    rewrite bool_decide_eq_true_2.
    + f_equal. apply existsb_exists. exists e.
      rewrite <- list_elem_of_In. split; [done|].
      apply andb_true_intro. split; [by apply String.eqb_eq|done].
    + subst k. by apply list_elem_of_fmap_2.
Qed.

(** ** The whole of lines 136-185 *)

Lemma valid_entry_chart_ready (e : gmap string pyval) :
  valid_entry e = true -> chart_ready e = true.
Proof.
  unfold valid_entry, chart_ready.
  destruct (e !! "entry_date"), (e !! "weight"), (e !! "calories"), (e !! "steps");
    try done.
  intros Hv. repeat (apply andb_prop in Hv as [Hv ?]). done.
Qed.

Lemma valid_entry_flag_ready (e : gmap string pyval) :
  valid_entry e = true -> flag_ready e = true.
Proof.
  unfold valid_entry, flag_ready.
  destruct (e !! "entry_date"), (e !! "weight"), (e !! "calories"), (e !! "steps");
    try done.
  intros Hv. repeat (apply andb_prop in Hv as [Hv ?]). done.
Qed.

Lemma valid_entry_calories (e : gmap string pyval) :
  valid_entry e = true -> number_or_none (dict_get e "calories") = true.
Proof.
  unfold valid_entry, dict_get.
  destruct (e !! "entry_date"), (e !! "weight"), (e !! "calories"), (e !! "steps");
    try done.
  intros Hv. repeat (apply andb_prop in Hv as [Hv ?]). done.
Qed.

Lemma valid_entry_insert_status (e : gmap string pyval) (v : pyval) :
  valid_entry e = true -> valid_entry (<["status" := v]> e) = true.
Proof.
  unfold valid_entry. by rewrite !lookup_insert_ne.
Qed.

(** C7.  On rows whose fields are each unset or a number, with or without
    a goal, the three loops and their composition return a result: no
    exception is raised.  This holds for a list of any length, so for the
    at most thirty rows [index] fetches. *)
Theorem index_core_total (entries : list (gmap string pyval)) (goal : option Z) :
  Forall (fun e => valid_entry e = true) entries ->
  (exists out, annotate entries goal = Ok out) /\
  (exists series, build_chart_series float_of_str str_of_float entries = Ok series) /\
  (exists flags, build_over_goal_flags str_of_float entries goal = Ok flags) /\
  (exists v, index_core float_of_str str_of_float entries goal = Ok v).
Proof.
  intros Hvalid.
  assert (Hcal : Forall (fun e => number_or_none (dict_get e "calories") = true) entries).
  { eapply Forall_impl; [exact Hvalid|]. apply valid_entry_calories. }
  assert (Hflags : forall es, Forall (fun e => valid_entry e = true) es ->
            exists flags, build_over_goal_flags str_of_float es goal = Ok flags).
  { intros es Hes. destruct goal as [g|]; simpl; [|by eexists].
    destruct (for_each_flag_update g es ∅) as (flags & Hrun & _); [|by eexists].
    eapply Forall_impl; [exact Hes|]. apply valid_entry_flag_ready. }
  assert (Hchart : forall es, Forall (fun e => valid_entry e = true) es ->
            exists series, build_chart_series float_of_str str_of_float es = Ok series).
  { intros es Hes. eexists. apply build_chart_series_ready.
    eapply Forall_impl; [exact Hes|]. apply valid_entry_chart_ready. }
  split; [|split; [|split]]; auto.
  - rewrite (annotate_number entries goal Hcal). by eexists.
  - unfold index_core. rewrite (annotate_number entries goal Hcal). simpl.
    set (out := map _ entries).
    assert (Hout : Forall (fun e => valid_entry e = true) out).
    { subst out. apply Forall_fmap. eapply Forall_impl; [exact Hvalid|].
      intros e He. by apply valid_entry_insert_status. }
    destruct (Hchart out Hout) as [series ->]. simpl.
    destruct (Hflags out Hout) as [flags ->]. simpl.
    by eexists.
Qed.

(** ** Labels *)

Lemma strftime_ymd_length (d : date) : String.length (strftime_ymd d) = 10%nat.
Proof. done. Qed.

(** C4, as the code has it.  The label of a row in the chart, which is
    also its key in the flags, depends on the Python type of the row's
    date: for a [date] (years 1000-9999) it is the ten characters
    YYYY-MM-DD, zero-padded, that read back as that date; for a [str] it is
    that text, unchanged. *)
Theorem entry_label_by_type (entries : list (gmap string pyval)) :
  Forall (fun e => valid_entry e = true) entries ->
  exists series,
    build_chart_series float_of_str str_of_float entries = Ok series /\
    forall i e dv,
      reverse entries !! i = Some e ->
      e !! "entry_date" = Some dv ->
      exists label,
        chart_labels series !! i = Some label /\
        (forall g, exists flags,
           build_over_goal_flags str_of_float entries (Some g) = Ok flags /\
           is_Some (flags !! label)) /\
        (forall d,
           calendar_date d = true ->
           dv = PyDate d ->
           label = strftime_ymd d /\
           String.length label = 10%nat /\
           parse_iso_date label = Some d) /\
        (forall s, dv = PyStr s -> label = s).
Proof.
  intros Hvalid.
  assert (Hchart : Forall (fun e => chart_ready e = true) entries).
  { eapply Forall_impl; [exact Hvalid|]. apply valid_entry_chart_ready. }
  assert (Hflag : Forall (fun e => flag_ready e = true) entries).
  { eapply Forall_impl; [exact Hvalid|]. apply valid_entry_flag_ready. }
  rewrite (build_chart_series_ready entries Hchart).
  eexists. split; [done|]. simpl. intros i e dv Hi Hdv.
  exists (entry_label str_of_float e). split.
  { by rewrite list_lookup_fmap, Hi. }
  split; [|split].
  - intros g. simpl.
    destruct (for_each_flag_update g entries ∅ Hflag) as (flags & Hrun & Hflags).
    exists flags. split; [done|]. rewrite Hflags.
    rewrite bool_decide_eq_true_2; [by eexists|].
    apply list_elem_of_fmap_2. apply list_elem_of_lookup_2 in Hi.
    by apply elem_of_reverse.
  - intros d Hd Hty.
    assert (entry_label str_of_float e = strftime_ymd d) as ->.
    { unfold entry_label, dict_get. by rewrite Hdv, Hty. }
    split; [done|]. split; [done|]. by apply strftime_ymd_parse.
  - intros s ->. unfold entry_label, dict_get. by rewrite Hdv.
Qed.

End IndexProofs.

(** ** The form handlers *)

Section HandlerProofs.

Variable db : Type.
Variable insert_entry :
  string -> option string -> option string -> option string -> db -> outcome db.
Variable replace_goal : string -> db -> outcome db.

(** C9.  When the form of [POST /add] has no date (missing or empty), and
    when the form of [POST /set_goal] has no calorie_goal, the handler
    leaves the store as it was, flashes one error message and redirects to
    the main page, whatever the store's write operations would do. *)
Theorem validation_error_leaves_store (form : gmap string string) (store : db) :
  (form_blank (form !! "date") = true ->
   add_entry db insert_entry form store =
   (store, redirect_index [("Date is required.", "error")])) /\
  (form_blank (form !! "calorie_goal") = true ->
   set_goal db replace_goal form store =
   (store, redirect_index [("Calorie goal cannot be empty.", "error")])).
Proof.
  unfold add_entry, set_goal, form_blank. split.
  - destruct (form !! "date") as [d|]; [|done]. by intros ->.
  - destruct (form !! "calorie_goal") as [goal|]; [|done]. by intros ->.
Qed.

End HandlerProofs.

(** * The theorems on the sample data *)

Lemma annotate_status_invariant_sample :
  exists out,
    annotate sample_entries (Some 2000) = Ok out /\
    Forall2 (fun e e' =>
      exists st, status_of e' = Some st /\
        (st = "N/A" <-> Some 2000 = None \/ dict_get e "calories" = PyNone) /\
        (forall g c, Some 2000 = Some g -> dict_get e "calories" = PyInt c ->
           (st = "Over Goal" <-> c > g) /\ (st = "Within Goal" <-> c <= g)))
      sample_entries out.
Proof.
  apply (annotate_status_invariant sample_entries (Some 2000)).
  repeat constructor.
Defined.

Lemma annotate_zero_calories_sample :
  exists out e',
    annotate [fasting_entry] (Some 2000) = Ok out /\
    out !! 0%nat = Some e' /\
    status_of e' = Some "Within Goal" /\
    status_of e' <> Some "N/A".
Proof.
  destruct (annotate_zero_calories [fasting_entry] 2000 0 fasting_entry)
    as (out & e' & Hrun & Hi & Hst & Hna & _).
  - repeat constructor.
  - reflexivity.
  - reflexivity.
  - exists out, e'. repeat split; assumption.
Defined.

Lemma annotate_frame_sample :
  exists out,
    annotate sample_entries (Some 2000) = Ok out /\
    length out = length sample_entries /\
    forall i e, sample_entries !! i = Some e ->
      exists e',
        out !! i = Some e' /\
        (forall k, k <> "status" -> e' !! k = e !! k) /\
        dom e' = dom e ∪ {["status"]} /\
        is_Some (status_of e').
Proof.
  apply (annotate_frame sample_entries (Some 2000)).
  repeat constructor.
Defined.

Lemma build_chart_series_reversed_sample :
  exists series,
    build_chart_series sample_float_of_str sample_str_of_float sample_entries = Ok series /\
    length (chart_labels series) = 3%nat /\
    chart_labels series = ["2024-01-01"; "2024-01-02"; "2024-01-03"] /\
    chart_calories series = [PyInt 0; PyInt 1800; PyInt 2200].
Proof.
  destruct (build_chart_series_reversed sample_float_of_str sample_str_of_float
              sample_entries)
    as (series & Hrun & (Hlen & _) & (Hlabels & _ & Hcal & _) & _).
  - repeat constructor.
  - exists series. split; [exact Hrun|].
    split; [exact Hlen|]. split; [exact Hlabels | exact Hcal].
Defined.

Lemma build_chart_series_missing_values_sample :
  exists series,
    build_chart_series sample_float_of_str sample_str_of_float sample_entries = Ok series /\
    chart_weights series !! 1%nat = Some PyNone /\
    chart_weights series !! 2%nat = Some (PyFloat (float_of_decimal 7010)) /\
    chart_calories series !! 0%nat = Some (PyInt 0) /\
    chart_steps series !! 1%nat = Some (PyInt 0).
Proof.
  destruct (build_chart_series_missing_values sample_float_of_str sample_str_of_float
              sample_entries)
    as (series & Hrun & Hpoints).
  - repeat constructor.
  - exists series. split; [exact Hrun|].
    destruct (Hpoints 0%nat _ eq_refl) as (_ & _ & _ & Hc0 & _).
    destruct (Hpoints 1%nat _ eq_refl) as (Hw1 & _ & _ & _ & _ & Hs1 & _).
    destruct (Hpoints 2%nat _ eq_refl) as (_ & _ & Hw2 & _).
    split; [exact (proj1 (Hw1 eq_refl))|].
    split; [exact (Hw2 7010 eq_refl)|].
    split; [exact (Hc0 eq_refl) | exact (Hs1 eq_refl)].
Defined.

Lemma build_over_goal_flags_or_sample :
  exists flags,
    build_over_goal_flags sample_str_of_float same_day_entries (Some 2000) = Ok flags /\
    flags !! "2024-02-01" = Some true.
Proof.
  destruct (proj2 (build_over_goal_flags_or sample_str_of_float same_day_entries) 2000)
    as (flags & Hrun & Hlookup & _).
  - repeat constructor.
  - exists flags. split; [exact Hrun|]. exact (Hlookup "2024-02-01").
Defined.

Lemma index_core_total_sample :
  (exists out, annotate sample_entries (Some 2000) = Ok out) /\
  (exists series,
     build_chart_series sample_float_of_str sample_str_of_float sample_entries
     = Ok series) /\
  (exists flags,
     build_over_goal_flags sample_str_of_float sample_entries (Some 2000) = Ok flags) /\
  (exists v,
     index_core sample_float_of_str sample_str_of_float sample_entries (Some 2000)
     = Ok v).
Proof.
  apply (index_core_total sample_float_of_str sample_str_of_float
           sample_entries (Some 2000)).
  repeat constructor.
Defined.

Lemma entry_label_by_type_sample :
  exists series label,
    build_chart_series sample_float_of_str sample_str_of_float sample_entries = Ok series /\
    chart_labels series !! 0%nat = Some label /\
    label = "2024-01-01" /\
    parse_iso_date label = Some (Date 2024 1 1).
Proof.
  destruct (entry_label_by_type sample_float_of_str sample_str_of_float sample_entries)
    as (series & Hrun & Hlabels).
  - repeat constructor.
  - destruct (Hlabels 0%nat _ (PyDate (Date 2024 1 1)) eq_refl eq_refl)
      as (label & Hi & _ & Hdate & _).
    destruct (Hdate (Date 2024 1 1) eq_refl eq_refl) as (Hlabel & _ & Hparse).
    exists series, label. repeat split; assumption.
Defined.

Lemma validation_error_leaves_store_sample :
  add_entry sample_db sample_insert_entry {[ "weight" := "70.5" ]} ([], Some "2000") =
  (([], Some "2000"), redirect_index [("Date is required.", "error")]) /\
  set_goal sample_db sample_replace_goal {[ "calorie_goal" := "" ]} ([], Some "2000") =
  (([], Some "2000"), redirect_index [("Calorie goal cannot be empty.", "error")]).
Proof.
  split.
  - apply (proj1 (validation_error_leaves_store sample_db sample_insert_entry
                    sample_replace_goal {[ "weight" := "70.5" ]} ([], Some "2000"))).
    reflexivity.
  - apply (proj2 (validation_error_leaves_store sample_db sample_insert_entry
                    sample_replace_goal {[ "calorie_goal" := "" ]} ([], Some "2000"))).
    reflexivity.
Defined.

(** C4 as the specification states it fails on the SQLite store, where the
    date of a row is the text that was posted: the row [text_date_entry]
    is labelled ["2024-1-5"] in the chart and in the flags, and that is not
    a zero-padded YYYY-MM-DD string. *)
Lemma text_date_label_not_iso :
  valid_entry text_date_entry = true /\
  (chart_labels <$>
     build_chart_series sample_float_of_str sample_str_of_float [text_date_entry])
  = Ok ["2024-1-5"] /\
  (map_to_list <$>
     build_over_goal_flags sample_str_of_float [text_date_entry] (Some 2000))
  = Ok [("2024-1-5", false)] /\
  parse_iso_date "2024-1-5" = None.
Proof. repeat split; vm_compute; reflexivity. Qed.

(** * The examples of the specification *)

(** Three days against a goal of 2000: the statuses in the order of the
    rows, and one flag per day. *)
Example sample_statuses :
  (map status_of <$> annotate sample_entries (Some 2000))
  = Ok [Some "Over Goal"; Some "Within Goal"; Some "N/A"].
Proof. vm_compute. reflexivity. Qed.

Example sample_flags :
  match build_over_goal_flags sample_str_of_float sample_entries (Some 2000) with
  | Ok flags =>
      flags !! "2024-01-03" = Some true /\
      flags !! "2024-01-02" = Some false /\
      flags !! "2024-01-01" = Some false /\
      size flags = 3%nat
  | Raise _ => False
  end.
Proof. vm_compute. repeat split. Qed.

(** Without a goal every status is ["N/A"] and there is no flag. *)
Example sample_without_goal :
  (map status_of <$> annotate sample_entries None)
  = Ok [Some "N/A"; Some "N/A"; Some "N/A"] /\
  (map_to_list <$> build_over_goal_flags sample_str_of_float sample_entries None)
  = Ok [].
Proof. split; vm_compute; reflexivity. Qed.

(** Two rows of one day, one of them over the goal: the day is flagged. *)
Example same_day_flag :
  (map_to_list <$> build_over_goal_flags sample_str_of_float same_day_entries (Some 2000))
  = Ok [("2024-02-01", true)].
Proof. vm_compute. reflexivity. Qed.

(** A weight of 70.10 kg is charted as the double nearest to 70.1, and the
    series run from the oldest day to the newest. *)
Example sample_chart :
  build_chart_series sample_float_of_str sample_str_of_float sample_entries
  = Ok {| chart_labels := ["2024-01-01"; "2024-01-02"; "2024-01-03"];
          chart_weights :=
            [PyFloat (S754_finite false 4960996464525312 (-46)); PyNone;
             PyFloat (S754_finite false 4932848966854246 (-46))];
          chart_calories := [PyInt 0; PyInt 1800; PyInt 2200];
          chart_steps := [PyInt 0; PyInt 0; PyInt 9000] |}.
Proof. vm_compute. reflexivity. Qed.

(** A text in a numeric column stops the status loop with a [TypeError];
    [index] then answers with an error page. *)
Example text_calories_raise :
  annotate [row (PyStr "2024-01-01") PyNone (PyStr "many") PyNone] (Some 2000)
  = Raise TypeError.
Proof. reflexivity. Qed.

(** A successful [POST /add] stores the row and flashes a success. *)
Example add_entry_stores :
  add_entry sample_db sample_insert_entry
    {[ "date" := "2024-01-05"; "calories" := "1800"; "steps" := "" ]} ([], None)
  = (([("2024-01-05", None, Some "1800", None)], None),
     redirect_index [("Entry added.", "success")]).
Proof. vm_compute. reflexivity. Qed.

(** * Further properties of the loops *)

(** ** When the status loop raises *)

Lemma entry_status_raise (g : Z) (e : gmap string pyval) (x : pyexc) :
  entry_status g e = Raise x ->
  x = TypeError /\ number_or_none (dict_get e "calories") = false.
Proof.
  unfold entry_status. destruct (dict_get e "calories"); simpl; try done.
  all: by intros [= <-].
Qed.

Lemma entry_status_text (g : Z) (e : gmap string pyval) :
  number_or_none (dict_get e "calories") = false ->
  entry_status g e = Raise TypeError.
Proof. unfold entry_status. by destruct (dict_get e "calories"). Qed.

Lemma annotate_against_raise (g : Z) (entries : list (gmap string pyval)) :
  Exists (fun e => number_or_none (dict_get e "calories") = false) entries ->
  annotate_against g entries = Raise TypeError.
Proof.
  induction 1 as [e rest He | e rest _ IH]; simpl.
  - by rewrite (entry_status_text g e He).
  - destruct (entry_status g e) as [st|x] eqn:Hst; simpl.
    + by rewrite IH.
    + by apply entry_status_raise in Hst as [-> _].
Qed.

(** The status loop raises only when a goal is set and the calories of
    some row are neither [None] nor a number (a text, a date), and what it
    raises then is [TypeError]. *)
Theorem annotate_raises_iff
    (entries : list (gmap string pyval)) (goal : option Z) (x : pyexc) :
  annotate entries goal = Raise x <->
  x = TypeError /\ is_Some goal /\
  Exists (fun e => number_or_none (dict_get e "calories") = false) entries.
Proof.
  split.
  - destruct goal as [g|]; simpl; [|done]. intros Hraise.
    destruct (decide (Forall (fun e => number_or_none (dict_get e "calories") = true)
                             entries)) as [Hall|Hsome].
    + pose proof (annotate_number entries (Some g) Hall) as Hok.
      simpl in Hok. congruence.
    + apply not_Forall_Exists in Hsome; [|intros e; apply _].
      assert (Hex : Exists (fun e => number_or_none (dict_get e "calories") = false)
                           entries).
      { eapply Exists_impl; [exact Hsome|]. intros e He; simpl in He.
        by apply not_true_is_false. }
      rewrite (annotate_against_raise g entries Hex) in Hraise.
      injection Hraise as <-. split; [done|]. split; [by eexists|done].
  - intros (-> & [g ->] & Hex). simpl. by apply annotate_against_raise.
Qed.

Section LoopProperties.

Variable float_of_str : string -> option spec_float.
Variable str_of_float : spec_float -> string.

(** ** When the chart loop raises *)

Lemma chart_append_convertible (acc : chart) (e : gmap string pyval) :
  chart_convertible float_of_str e = true ->
  chart_append float_of_str str_of_float acc e =
  Ok {| chart_labels := chart_labels acc ++ [entry_label str_of_float e];
        chart_weights :=
          chart_weights acc ++ [weight_value float_of_str (dict_get e "weight")];
        chart_calories := chart_calories acc ++ [py_or (dict_get e "calories") (PyInt 0)];
        chart_steps := chart_steps acc ++ [py_or (dict_get e "steps") (PyInt 0)] |}.
Proof.
  unfold chart_convertible, chart_append, entry_label, dict_item, dict_get, weight_value.
  destruct (e !! "entry_date") as [d|]; [|done].
  destruct (e !! "weight") as [w|]; [|done].
  destruct (e !! "calories") as [c|]; [|done].
  destruct (e !! "steps") as [s|]; [|done]. simpl.
  destruct (py_is_none w); simpl; [done|].
  by destruct (py_float float_of_str w).
Qed.

Lemma chart_append_not_convertible (acc : chart) (e : gmap string pyval) :
  chart_convertible float_of_str e = false ->
  exists x, chart_append float_of_str str_of_float acc e = Raise x.
Proof.
  unfold chart_convertible, chart_append, dict_item.
  destruct (e !! "entry_date") as [d|]; [|by eexists].
  destruct (e !! "weight") as [w|]; [|by eexists].
  destruct (e !! "calories") as [c|]; simpl.
  - destruct (e !! "steps") as [s|]; simpl.
    + destruct (py_is_none w); simpl; [done|].
      destruct (py_float float_of_str w); simpl; [done|by eexists].
    + destruct (py_is_none w); simpl; [by eexists|].
      destruct (py_float float_of_str w); simpl; by eexists.
  - destruct (py_is_none w); simpl; [by eexists|].
    destruct (py_float float_of_str w); simpl; by eexists.
Qed.

Lemma for_each_chart_convertible (entries : list (gmap string pyval)) (acc : chart) :
  Forall (fun e => chart_convertible float_of_str e = true) entries ->
  for_each (chart_append float_of_str str_of_float) acc entries =
  Ok {| chart_labels := chart_labels acc ++ map (entry_label str_of_float) entries;
        chart_weights :=
          chart_weights acc
          ++ map (fun e => weight_value float_of_str (dict_get e "weight")) entries;
        chart_calories :=
          chart_calories acc ++ map (fun e => py_or (dict_get e "calories") (PyInt 0)) entries;
        chart_steps :=
          chart_steps acc ++ map (fun e => py_or (dict_get e "steps") (PyInt 0)) entries |}.
Proof.
  intros Hconv. revert acc.
  induction Hconv as [|e rest He _ IH]; intros acc; simpl.
  - rewrite !app_nil_r. by destruct acc.
  - rewrite (chart_append_convertible acc e He). simpl.
    rewrite IH. simpl. by rewrite <- !app_assoc.
Qed.

Lemma for_each_chart_stops (entries : list (gmap string pyval)) (acc : chart) :
  Exists (fun e => chart_convertible float_of_str e = false) entries ->
  exists x, for_each (chart_append float_of_str str_of_float) acc entries = Raise x.
Proof.
  intros Hex. revert acc.
  induction Hex as [e rest He | e rest _ IH]; intros acc; simpl.
  - destruct (chart_append_not_convertible acc e He) as [x ->]. by exists x.
  - destruct (chart_append float_of_str str_of_float acc e) as [acc'|x]; simpl.
    + apply IH.
    + by exists x.
Qed.

Lemma build_chart_series_ok_convertible (entries : list (gmap string pyval))
    (series : chart) :
  build_chart_series float_of_str str_of_float entries = Ok series ->
  Forall (fun e => chart_convertible float_of_str e = true) entries.
Proof.
  unfold build_chart_series. intros Hrun.
  destruct (decide (Forall (fun e => chart_convertible float_of_str e = true)
                           entries)) as [Hall|Hsome]; [done|].
  apply not_Forall_Exists in Hsome; [|intros e; apply _].
  assert (Hex : Exists (fun e => chart_convertible float_of_str e = false)
                       (reverse entries)).
  { apply Exists_exists in Hsome as (e & Hin & He).
    apply Exists_exists. exists e. split; [by apply elem_of_reverse|].
    by apply not_true_is_false. }
  destruct (for_each_chart_stops (reverse entries) (Chart [] [] [] []) Hex) as [x Hx].
  congruence.
Qed.

Lemma build_chart_series_convertible (entries : list (gmap string pyval)) :
  Forall (fun e => chart_convertible float_of_str e = true) entries ->
  build_chart_series float_of_str str_of_float entries =
  Ok {| chart_labels := map (entry_label str_of_float) (reverse entries);
        chart_weights :=
          map (fun e => weight_value float_of_str (dict_get e "weight")) (reverse entries);
        chart_calories :=
          map (fun e => py_or (dict_get e "calories") (PyInt 0)) (reverse entries);
        chart_steps :=
          map (fun e => py_or (dict_get e "steps") (PyInt 0)) (reverse entries) |}.
Proof.
  intros Hall. unfold build_chart_series.
  rewrite for_each_chart_convertible; [done|]. by apply Forall_reverse.
Qed.

(** The chart loop returns its four lists exactly when every row has the
    columns entry_date, weight, calories and steps and a weight that is
    [None] or accepted by [float]; otherwise it raises.  Calories and steps
    of any type are let through. *)
Theorem build_chart_series_ok_iff (entries : list (gmap string pyval)) :
  (exists series, build_chart_series float_of_str str_of_float entries = Ok series) <->
  Forall (fun e => chart_convertible float_of_str e = true) entries.
Proof.
  split.
  - intros [series Hrun]. by apply (build_chart_series_ok_convertible entries series).
  - intros Hall. eexists. by apply build_chart_series_convertible.
Qed.

(** ** The chart and the flags do not see the status *)

Lemma chart_append_insert_status (acc : chart) (e : gmap string pyval) (v : pyval) :
  chart_append float_of_str str_of_float acc (<["status" := v]> e) =
  chart_append float_of_str str_of_float acc e.
Proof. unfold chart_append, dict_item. by rewrite !lookup_insert_ne. Qed.

Lemma flag_update_insert_status (g : Z) (acc : gmap string bool)
    (e : gmap string pyval) (v : pyval) :
  flag_update str_of_float g acc (<["status" := v]> e) =
  flag_update str_of_float g acc e.
Proof. unfold flag_update, dict_item. by rewrite !lookup_insert_ne. Qed.

Lemma for_each_Forall2 {A S : Type} (body : S -> A -> result S) (xs ys : list A) :
  Forall2 (fun x y => forall acc, body acc x = body acc y) xs ys ->
  forall acc, for_each body acc xs = for_each body acc ys.
Proof.
  induction 1 as [|x y xs ys Hxy _ IH]; intros acc; simpl; [done|].
  rewrite Hxy. destruct (body acc y); simpl; [apply IH|done].
Qed.

Lemma annotate_against_status_only (g : Z) (entries out : list (gmap string pyval)) :
  annotate_against g entries = Ok out ->
  Forall2 (fun e' e => exists v, e' = <["status" := v]> e) out entries.
Proof.
  revert out. induction entries as [|e rest IH]; intros out; simpl.
  - intros [= <-]. constructor.
  - destruct (entry_status g e) as [st|] eqn:Hst; simpl; [|done].
    destruct (annotate_against g rest) as [rest'|] eqn:Hrest; simpl; [|done].
    intros [= <-]. constructor; eauto.
Qed.

Lemma annotate_status_only (entries out : list (gmap string pyval)) (goal : option Z) :
  annotate entries goal = Ok out ->
  Forall2 (fun e' e => exists v, e' = <["status" := v]> e) out entries.
Proof.
  destruct goal as [g|]; simpl.
  - apply annotate_against_status_only.
  - intros [= <-]. apply Forall2_fmap_l, Forall_Forall2_diag, Forall_true. eauto.
Qed.

Lemma build_chart_series_annotated (entries out : list (gmap string pyval))
    (goal : option Z) :
  annotate entries goal = Ok out ->
  build_chart_series float_of_str str_of_float out =
  build_chart_series float_of_str str_of_float entries.
Proof.
  intros Hout. unfold build_chart_series. apply for_each_Forall2.
  apply Forall2_reverse.
  eapply Forall2_impl; [exact (annotate_status_only entries out goal Hout)|].
  intros e' e [v ->] acc. apply chart_append_insert_status.
Qed.

Lemma build_over_goal_flags_annotated (entries out : list (gmap string pyval))
    (goal goal' : option Z) :
  annotate entries goal = Ok out ->
  build_over_goal_flags str_of_float out goal' =
  build_over_goal_flags str_of_float entries goal'.
Proof.
  intros Hout. destruct goal' as [g|]; simpl; [|done]. apply for_each_Forall2.
  eapply Forall2_impl; [exact (annotate_status_only entries out goal Hout)|].
  intros e' e [v ->] acc. apply flag_update_insert_status.
Qed.

(** [index] feeds the rows with their statuses to the chart loop and to
    the flags loop, and that makes no difference: the view it builds holds
    the chart and the flags of the rows as they were fetched, and the
    exception that ends it, if any, is the first one the three loops raise
    on those rows. *)
Theorem index_core_of_fetched_rows
    (entries : list (gmap string pyval)) (goal : option Z) :
  index_core float_of_str str_of_float entries goal =
  (out ← annotate entries goal;
   series ← build_chart_series float_of_str str_of_float entries;
   flags ← build_over_goal_flags str_of_float entries goal;
   Ok {| view_entries := out; view_calorie_goal := goal;
         view_over_goal_flags := flags; view_chart := series |}).
Proof.
  unfold index_core.
  destruct (annotate entries goal) as [out|x] eqn:Hout; simpl; [|done].
  rewrite (build_chart_series_annotated entries out goal Hout).
  by rewrite (build_over_goal_flags_annotated entries out goal goal Hout).
Qed.

(** ** Flags and statuses agree *)

Lemma expected_status_over (g : Z) (v : pyval) :
  expected_status (Some g) v = "Over Goal" <-> over_goal g v = true.
Proof.
  destruct v; simpl; try done;
    match goal with |- context [if ?b then _ else _] => by destruct b end.
Qed.

Lemma flag_ready_calories (e : gmap string pyval) :
  flag_ready e = true -> number_or_none (dict_get e "calories") = true.
Proof.
  unfold flag_ready, dict_get.
  by destruct (e !! "entry_date"), (e !! "calories").
Qed.

Lemma entry_label_insert_status (e : gmap string pyval) (v : pyval) :
  entry_label str_of_float (<["status" := v]> e) = entry_label str_of_float e.
Proof. unfold entry_label. by rewrite dict_get_insert_ne. Qed.

Lemma flags_lookup_true (g : Z) (k : string) (entries : list (gmap string pyval))
    (flags : gmap string bool) :
  (forall k, flags !! k =
     if bool_decide (k ∈ map (entry_label str_of_float) entries)
     then Some (default false ((∅ : gmap string bool) !! k)
                || any_over str_of_float g k entries)
     else (∅ : gmap string bool) !! k) ->
  flags !! k = Some true <->
  exists e, e ∈ entries /\ entry_label str_of_float e = k /\
            over_goal g (dict_get e "calories") = true.
Proof.
  intros Hflags. rewrite Hflags, lookup_empty. simpl. split.
  - case_bool_decide; [|done]. intros [= Hany].
    apply existsb_exists in Hany as (e & Hin & He).
    apply andb_prop in He as [Hlabel Hover].
    exists e. rewrite <- list_elem_of_In in Hin.
    by apply String.eqb_eq in Hlabel.
  - intros (e & Hin & Hlabel & Hover).
    rewrite bool_decide_eq_true_2.
    + f_equal. apply existsb_exists. exists e.
      rewrite <- list_elem_of_In. split; [done|].
      apply andb_true_intro. split; [by apply String.eqb_eq|done].
    + subst k. by apply list_elem_of_fmap_2.
Qed.

(** A day is flagged in [over_goal_flags] exactly when the table shows
    ["Over Goal"] for some row of that day. *)
Theorem flags_agree_with_statuses (entries : list (gmap string pyval)) (g : Z) :
  Forall (fun e => flag_ready e = true) entries ->
  exists out flags,
    annotate entries (Some g) = Ok out /\
    build_over_goal_flags str_of_float entries (Some g) = Ok flags /\
    forall k,
      flags !! k = Some true <->
      exists e', e' ∈ out /\ entry_label str_of_float e' = k /\
                 status_of e' = Some "Over Goal".
Proof.
  intros Hready.
  assert (Hcal : Forall (fun e => number_or_none (dict_get e "calories") = true) entries).
  { eapply Forall_impl; [exact Hready|]. apply flag_ready_calories. }
  rewrite (annotate_number entries (Some g) Hcal). simpl.
  destruct (for_each_flag_update str_of_float g entries ∅ Hready)
    as (flags & Hrun & Hflags).
  eexists. exists flags. split; [done|]. split; [done|]. intros k.
  rewrite (flags_lookup_true g k entries flags Hflags). split.
  - intros (e & Hin & Hlabel & Hover). eexists. split.
    { apply list_elem_of_fmap_2. exact Hin. }
    rewrite entry_label_insert_status. split; [done|].
    unfold status_of. rewrite lookup_insert_eq. f_equal.
    by apply expected_status_over.
  - intros (e' & Hin & Hlabel & Hst).
    apply list_elem_of_fmap in Hin as (e & -> & Hin).
    rewrite entry_label_insert_status in Hlabel.
    unfold status_of in Hst. rewrite lookup_insert_eq in Hst.
    injection Hst as Hst. apply expected_status_over in Hst. eauto.
Qed.

(** ** What the chart lists hold *)




(** ** The flags do not depend on the order of the rows *)

Lemma any_over_Permutation (g : Z) (k : string)
    (entries entries' : list (gmap string pyval)) :
  entries ≡ₚ entries' ->
  any_over str_of_float g k entries = any_over str_of_float g k entries'.
Proof.
  unfold any_over. induction 1 as [|e l l' _ IH|e1 e2 l|l1 l2 l3 _ IH1 _ IH2]; simpl.
  - done.
  - by rewrite IH.
  - rewrite !orb_assoc. f_equal. apply orb_comm.
  - by rewrite IH1.
Qed.

(** The flags loop gives the same map for the rows in any order. *)
Theorem flags_order_independent
    (entries entries' : list (gmap string pyval)) (goal : option Z) :
  entries ≡ₚ entries' ->
  Forall (fun e => flag_ready e = true) entries ->
  build_over_goal_flags str_of_float entries goal =
  build_over_goal_flags str_of_float entries' goal.
Proof.
  intros Hperm Hready. destruct goal as [g|]; simpl; [|done].
  assert (Hready' : Forall (fun e => flag_ready e = true) entries').
  { by rewrite <- Hperm. }
  destruct (for_each_flag_update str_of_float g entries ∅ Hready)
    as (flags & -> & Hflags).
  destruct (for_each_flag_update str_of_float g entries' ∅ Hready')
    as (flags' & -> & Hflags').
  f_equal. apply map_eq. intros k. rewrite Hflags, Hflags'.
  rewrite (any_over_Permutation g k entries entries' Hperm).
  assert (bool_decide (k ∈ map (entry_label str_of_float) entries)
          = bool_decide (k ∈ map (entry_label str_of_float) entries')) as ->; [|done].
  apply bool_decide_ext. rewrite !list_elem_of_fmap.
  split; intros (e & He & Hin); exists e; split; try done.
  - by rewrite <- Hperm.
  - by rewrite Hperm.
Qed.

(** ** Raising the goal *)

Lemma float_gt_int_mono (x : spec_float) (g g' : Z) :
  g <= g' -> float_gt_int x g' = true -> float_gt_int x g = true.
Proof.
  intros Hg. destruct x as [s|s| |s m e]; simpl; try done.
  - intros H%Z.ltb_lt. apply Z.ltb_lt. lia.
  - destruct (0 <=? e) eqn:He.
    + intros H%Z.ltb_lt. apply Z.ltb_lt. lia.
    + intros H%Z.ltb_lt. apply Z.ltb_lt.
      assert (0 <= 2 ^ (- e)) by (apply Z.pow_nonneg; lia). nia.
Qed.

Lemma over_goal_mono (g g' : Z) (v : pyval) :
  g <= g' -> over_goal g' v = true -> over_goal g v = true.
Proof.
  intros Hg. destruct v; simpl; try done.
  - intros H%Z.ltb_lt. apply Z.ltb_lt. lia.
  - by apply float_gt_int_mono.
  - intros H%Z.ltb_lt. apply Z.ltb_lt. lia.
Qed.

(** Raising the goal never flags a new day: the two maps have the same
    keys, and a day flagged against the higher goal is flagged against the
    lower one. *)
Theorem flags_antitone_in_goal (entries : list (gmap string pyval)) (g g' : Z) :
  g <= g' ->
  Forall (fun e => flag_ready e = true) entries ->
  exists flags flags',
    build_over_goal_flags str_of_float entries (Some g) = Ok flags /\
    build_over_goal_flags str_of_float entries (Some g') = Ok flags' /\
    (forall k, is_Some (flags !! k) <-> is_Some (flags' !! k)) /\
    (forall k, flags' !! k = Some true -> flags !! k = Some true).
Proof.
  intros Hg Hready. simpl.
  destruct (for_each_flag_update str_of_float g entries ∅ Hready)
    as (flags & -> & Hflags).
  destruct (for_each_flag_update str_of_float g' entries ∅ Hready)
    as (flags' & -> & Hflags').
  exists flags, flags'. split; [done|]. split; [done|]. split.
  - intros k. rewrite Hflags, Hflags'. by case_bool_decide.
  - intros k Hk.
    apply (flags_lookup_true g' k entries flags' Hflags') in Hk
      as (e & Hin & Hlabel & Hover).
    apply (flags_lookup_true g k entries flags Hflags).
    exists e. split; [done|]. split; [done|]. by apply (over_goal_mono g g').
Qed.

(** ** Labels of dates *)

(** Two different calendar dates never get the same label, so the flags
    loop never merges two days of a [DATE] column into one key. *)
Theorem date_label_injective (d1 d2 : date) :
  calendar_date d1 = true ->
  calendar_date d2 = true ->
  date_label str_of_float (PyDate d1) = date_label str_of_float (PyDate d2) ->
  d1 = d2.
Proof.
  simpl. intros H1 H2 Heq.
  apply strftime_ymd_parse in H1, H2. rewrite Heq in H1. congruence.
Qed.

End LoopProperties.

(** * The pages and the connection *)

Section RequestProofs.

Variable conn : Type.
Variable sqlite3_connect : string -> attempt conn.
Variable mysql_connect : list (string * option string) -> attempt conn.
Variable read_goal : bool -> conn -> attempt (option string).
Variable read_entries : bool -> conn -> attempt (list (gmap string pyval)).
Variable conn_close : conn -> attempt unit.
Variable int_of_str : string -> Z + string.
Variable float_of_str : string -> option spec_float.
Variable str_of_float : spec_float -> string.

Lemma missing_config_elem (environ : gmap string string) (k : string) :
  k ∈ missing_config (db_config environ) <->
  (k = "host" /\ form_blank (environ !! "DB_HOST") = true) \/
  (k = "user" /\ form_blank (environ !! "DB_USER") = true) \/
  (k = "password" /\ form_blank (environ !! "DB_PASSWORD") = true) \/
  (k = "database" /\ form_blank (environ !! "DB_NAME") = true).
Proof.
  unfold missing_config, db_config. simpl.
  destruct (form_blank (environ !! "DB_HOST")),
           (form_blank (environ !! "DB_USER")),
           (form_blank (environ !! "DB_PASSWORD")),
           (form_blank (environ !! "DB_NAME")); simpl;
    rewrite ?elem_of_cons, ?elem_of_nil; intuition congruence.
Qed.

Lemma missing_config_nonempty (environ : gmap string string) :
  form_blank (environ !! "DB_HOST") = true \/
  form_blank (environ !! "DB_USER") = true \/
  form_blank (environ !! "DB_PASSWORD") = true \/
  form_blank (environ !! "DB_NAME") = true ->
  missing_config (db_config environ) <> [].
Proof.
  intros Hblank Hnil.
  assert (exists k, k ∈ missing_config (db_config environ)) as [k Hk].
  { destruct Hblank as [H|[H|[H|H]]]; eexists; apply missing_config_elem; eauto 6. }
  rewrite Hnil in Hk. by apply elem_of_nil in Hk.
Qed.

(** Without LOCAL_DEV=1, as soon as one of DB_HOST, DB_USER, DB_PASSWORD
    and DB_NAME is unset or empty, no driver is called: the connection
    raises a RuntimeError whose text names exactly the settings that are
    missing, the main page answers 500 with that text after "App error: ",
    and the health check answers 500 "DB error". *)
Theorem missing_config_stops_pages (environ : gmap string string) :
  form_blank (environ !! "DB_HOST") = true \/
  form_blank (environ !! "DB_USER") = true \/
  form_blank (environ !! "DB_PASSWORD") = true \/
  form_blank (environ !! "DB_NAME") = true ->
  exists missing,
    (forall k, k ∈ missing <->
       (k = "host" /\ form_blank (environ !! "DB_HOST") = true) \/
       (k = "user" /\ form_blank (environ !! "DB_USER") = true) \/
       (k = "password" /\ form_blank (environ !! "DB_PASSWORD") = true) \/
       (k = "database" /\ form_blank (environ !! "DB_NAME") = true)) /\
    get_db_connection conn sqlite3_connect mysql_connect false environ
    = Thrown OtherException (missing_config_message missing) /\
    index conn sqlite3_connect mysql_connect read_goal read_entries conn_close
          int_of_str float_of_str str_of_float false environ
    = Plain ("App error: " +:+ missing_config_message missing) 500 /\
    health conn sqlite3_connect mysql_connect conn_close false environ
    = ("DB error", 500).
Proof.
  intros Hblank. exists (missing_config (db_config environ)).
  split; [apply missing_config_elem|].
  pose proof (missing_config_nonempty environ Hblank) as Hne.
  unfold index, health, get_db_connection.
  by destruct (missing_config (db_config environ)).
Qed.

(** Exceptions of the three loops are raised after the [try] of [index]:
    when the reads succeed, a goal is stored and the calories of some
    fetched row are a text, the page is not a 500 answer of [index] but a
    [TypeError] that leaves the view function. *)
Theorem index_uncaught_type_error
    (use_sqlite : bool) (environ : gmap string string) (c : conn)
    (text : string) (n : Z) (entries : list (gmap string pyval)) :
  get_db_connection conn sqlite3_connect mysql_connect use_sqlite environ = Done c ->
  read_goal use_sqlite c = Done (Some text) ->
  int_of_str text = inl n ->
  read_entries use_sqlite c = Done entries ->
  conn_close c = Done tt ->
  Exists (fun e => number_or_none (dict_get e "calories") = false) entries ->
  index conn sqlite3_connect mysql_connect read_goal read_entries conn_close
        int_of_str float_of_str str_of_float use_sqlite environ
  = Uncaught TypeError.
Proof.
  intros Hconn Hgoal Hint Hrows Hclose Hex.
  unfold index, goal_of_row. rewrite Hconn, Hgoal, Hint, Hrows, Hclose.
  unfold index_core. simpl. by rewrite (annotate_against_raise n entries Hex).
Qed.

(** As long as no goal is stored the calories are never compared: the
    page is rendered for rows with calories and steps of any type, every
    status is ["N/A"] and no day is flagged. *)
Theorem index_without_goal
    (use_sqlite : bool) (environ : gmap string string) (c : conn)
    (entries : list (gmap string pyval)) :
  get_db_connection conn sqlite3_connect mysql_connect use_sqlite environ = Done c ->
  read_goal use_sqlite c = Done None ->
  read_entries use_sqlite c = Done entries ->
  conn_close c = Done tt ->
  Forall (fun e => chart_convertible float_of_str e = true) entries ->
  exists v,
    index conn sqlite3_connect mysql_connect read_goal read_entries conn_close
          int_of_str float_of_str str_of_float use_sqlite environ
    = Rendered v /\
    view_calorie_goal v = None /\
    view_over_goal_flags v = ∅ /\
    length (view_entries v) = length entries /\
    Forall (fun e' => status_of e' = Some "N/A") (view_entries v).
Proof.
  intros Hconn Hgoal Hrows Hclose Hconv.
  unfold index, goal_of_row. rewrite Hconn, Hgoal, Hrows, Hclose.
  unfold index_core. simpl.
  rewrite (build_chart_series_annotated float_of_str str_of_float entries _ None eq_refl).
  rewrite (build_chart_series_convertible float_of_str str_of_float entries Hconv).
  simpl. eexists. split; [done|]. simpl.
  split; [done|]. split; [done|]. split; [by rewrite length_map|].
  apply Forall_fmap, Forall_true. intros e. simpl.
  unfold status_of. by rewrite lookup_insert_eq.
Qed.

End RequestProofs.

Section RenderProofs.

Variable conn : Type.
Variable sqlite3_connect : string -> attempt conn.
Variable mysql_connect : list (string * option string) -> attempt conn.
Variable read_goal : bool -> conn -> attempt (option string).
Variable read_entries : bool -> conn -> attempt (list (gmap string pyval)).
Variable conn_close : conn -> attempt unit.
Variable int_of_str : string -> Z + string.
Variable float_of_str : string -> option spec_float.
Variable str_of_float : spec_float -> string.

(** When the reads succeed, the stored goal (if any) is accepted by [int]
    and every fetched row is valid, [index] renders the template, with the
    goal, the rows with their statuses, and the chart and the flags of the
    fetched rows. *)
Theorem index_renders_valid_rows
    (use_sqlite : bool) (environ : gmap string string) (c : conn)
    (row : option string) (goal : option Z) (entries : list (gmap string pyval)) :
  get_db_connection conn sqlite3_connect mysql_connect use_sqlite environ = Done c ->
  read_goal use_sqlite c = Done row ->
  goal_of_row int_of_str row = inl goal ->
  read_entries use_sqlite c = Done entries ->
  conn_close c = Done tt ->
  Forall (fun e => valid_entry e = true) entries ->
  exists v,
    index conn sqlite3_connect mysql_connect read_goal read_entries conn_close
          int_of_str float_of_str str_of_float use_sqlite environ
    = Rendered v /\
    view_calorie_goal v = goal /\
    annotate entries goal = Ok (view_entries v) /\
    build_chart_series float_of_str str_of_float entries = Ok (view_chart v) /\
    build_over_goal_flags str_of_float entries goal = Ok (view_over_goal_flags v).
Proof.
  intros Hconn Hgoal Hint Hrows Hclose Hvalid.
  unfold index. rewrite Hconn, Hgoal, Hint, Hrows, Hclose.
  assert (Hcal : Forall (fun e => number_or_none (dict_get e "calories") = true) entries).
  { eapply Forall_impl; [exact Hvalid|]. apply valid_entry_calories. }
  assert (Hchart : Forall (fun e => chart_ready e = true) entries).
  { eapply Forall_impl; [exact Hvalid|]. apply valid_entry_chart_ready. }
  assert (Hflag : Forall (fun e => flag_ready e = true) entries).
  { eapply Forall_impl; [exact Hvalid|]. apply valid_entry_flag_ready. }
  pose proof (annotate_number entries goal Hcal) as Hout.
  unfold index_core. rewrite Hout. simpl.
  rewrite (build_chart_series_annotated float_of_str str_of_float entries _ goal Hout).
  rewrite (build_over_goal_flags_annotated str_of_float entries _ goal goal Hout).
  rewrite (build_chart_series_ready float_of_str str_of_float entries Hchart). simpl.
  assert (exists flags, build_over_goal_flags str_of_float entries goal = Ok flags)
    as [flags Hflags].
  { destruct goal as [g|]; simpl; [|by eexists].
    destruct (for_each_flag_update str_of_float g entries ∅ Hflag) as (flags & ? & _).
    by eexists. }
  rewrite Hflags. simpl. eexists. by repeat split.
Qed.

End RenderProofs.

(** * The form handlers, on any store *)

Section MoreHandlerProofs.

Variable db : Type.
Variable insert_entry :
  string -> option string -> option string -> option string -> db -> outcome db.
Variable replace_goal : string -> db -> outcome db.

(** For the three optional fields of [POST /add], a field sent empty and a
    field not sent are the same request: both reach the store as NULL. *)
Theorem add_entry_empty_field_is_missing
    (k : string) (form : gmap string string) (store : db) :
  k = "weight" \/ k = "calories" \/ k = "steps" ->
  add_entry db insert_entry (<[k := ""]> form) store =
  add_entry db insert_entry (delete k form) store.
Proof.
  unfold add_entry, form_or_none, form_blank.
  intros [-> | [-> | ->]]; by simplify_map_eq.
Qed.

(** Both handlers end every request with a redirect to the main page and
    exactly one flashed message; its category is ["success"] exactly when
    the required field was filled in and the store committed the write,
    and the store is then what the write made it. *)
Theorem handlers_flash_once (form : gmap string string) (store : db) :
  (exists message category,
     snd (add_entry db insert_entry form store) = redirect_index [(message, category)] /\
     (category = "success" <->
      exists d store',
        form !! "date" = Some d /\ d <> "" /\
        insert_entry d (form_or_none (form !! "weight"))
          (form_or_none (form !! "calories")) (form_or_none (form !! "steps")) store
        = Committed store' /\
        fst (add_entry db insert_entry form store) = store')) /\
  (exists message category,
     snd (set_goal db replace_goal form store) = redirect_index [(message, category)] /\
     (category = "success" <->
      exists goal store',
        form !! "calorie_goal" = Some goal /\ goal <> "" /\
        replace_goal goal store = Committed store' /\
        fst (set_goal db replace_goal form store) = store')).
Proof.
  unfold add_entry, set_goal. split.
  - destruct (form !! "date") as [d|]; simpl.
    + destruct (String.eqb_spec d "") as [->|Hd].
      * eexists _, _. split; [done|]. split; [done|].
        by intros (? & ? & [= <-] & ? & _).
      * destruct (insert_entry d _ _ _ store) as [store'|msg store'] eqn:Hins.
        -- eexists _, _. split; [done|]. split; [|done].
           intros _. exists d, store'. by rewrite Hins.
        -- eexists _, _. split; [done|]. split; [done|].
           intros (? & ? & [= <-] & _ & Hc & _). congruence.
    + eexists _, _. split; [done|]. split; [done|]. by intros (? & ? & ? & _).
  - destruct (form !! "calorie_goal") as [goal|]; simpl.
    + destruct (String.eqb_spec goal "") as [->|Hg].
      * eexists _, _. split; [done|]. split; [done|].
        by intros (? & ? & [= <-] & ? & _).
      * destruct (replace_goal goal store) as [store'|msg store'] eqn:Hrep.
        -- eexists _, _. split; [done|]. split; [|done].
           intros _. exists goal, store'. by rewrite Hrep.
        -- eexists _, _. split; [done|]. split; [done|].
           intros (? & ? & [= <-] & _ & Hc & _). congruence.
    + eexists _, _. split; [done|]. split; [done|]. by intros (? & ? & ? & _).
Qed.

End MoreHandlerProofs.

(** * The local store *)

(** ** The thirty newest rows *)

Lemma string_compare_refl (s : string) : String.compare s s = Eq.
Proof.
  pose proof (String.compare_antisym s s) as H.
  by destruct (String.compare s s).
Qed.

Lemma string_ltb_irrefl (s : string) : String.ltb s s = false.
Proof. unfold String.ltb. by rewrite string_compare_refl. Qed.

Lemma newer_asym (a b : entry_row) : newer a b = true -> newer b a = false.
Proof.
  unfold newer. intros H. apply orb_true_iff in H as [Hlt|Heq].
  - unfold String.ltb in *.
    rewrite (String.compare_antisym (row_date a) (row_date b)).
    destruct (String.compare (row_date b) (row_date a)) eqn:Hcmp; try done. simpl.
    destruct (String.eqb_spec (row_date b) (row_date a)) as [Hsame|]; [|done].
    rewrite Hsame, string_compare_refl in Hcmp. done.
  - apply andb_prop in Heq as [Hsame Hid].
    apply String.eqb_eq in Hsame. rewrite Hsame, string_ltb_irrefl, String.eqb_refl.
    simpl. apply Z.ltb_lt in Hid. apply Z.ltb_ge. lia.
Qed.

Lemma insert_newest_Permutation (x : entry_row) (rows : list entry_row) :
  insert_newest x rows ≡ₚ x :: rows.
Proof.
  induction rows as [|h t IH]; simpl; [done|].
  destruct (newer x h); [done|]. rewrite IH. apply Permutation_swap.
Qed.

Lemma sort_newest_Permutation (rows : list entry_row) : sort_newest rows ≡ₚ rows.
Proof.
  induction rows as [|x t IH]; simpl; [done|].
  rewrite insert_newest_Permutation. by rewrite IH.
Qed.

Lemma insert_newest_Sorted (x : entry_row) (rows : list entry_row) :
  Sorted (fun a b => newer b a = false) rows ->
  Sorted (fun a b => newer b a = false) (insert_newest x rows).
Proof.
  induction rows as [|h t IH]; simpl; intros Hsorted.
  - repeat constructor.
  - destruct (newer x h) eqn:Hxh.
    + constructor; [done|]. constructor. by apply newer_asym.
    + apply Sorted_inv in Hsorted as [Ht Hhd]. constructor; [by apply IH|].
      destruct t as [|h' t']; simpl.
      * by constructor.
      * destruct (newer x h'); constructor; [done|]. by apply HdRel_inv in Hhd.
Qed.

Lemma sort_newest_Sorted (rows : list entry_row) :
  Sorted (fun a b => newer b a = false) (sort_newest rows).
Proof.
  induction rows as [|x t IH]; simpl; [constructor|]. by apply insert_newest_Sorted.
Qed.

(** The main page shows min(30, number of stored rows) rows: the first
    thirty of the stored rows put in an order where no row is followed by
    a newer one (a later date, or the same date and a later insert). *)
Theorem recent_entries_newest_first (db : database) :
  exists sorted,
    sorted ≡ₚ fitness_entries db /\
    Sorted (fun a b => newer b a = false) sorted /\
    select_recent_entries db = map entry_dict (take 30 sorted) /\
    length (select_recent_entries db) = Nat.min 30 (length (fitness_entries db)).
Proof.
  exists (sort_newest (fitness_entries db)).
  split; [apply sort_newest_Permutation|].
  split; [apply sort_newest_Sorted|]. split; [done|].
  unfold select_recent_entries.
  rewrite length_map, length_take.
  by rewrite (Permutation_length (sort_newest_Permutation (fitness_entries db))).
Qed.

(** With at most thirty stored rows none is left out. *)
Theorem recent_entries_all_when_few (db : database) :
  (length (fitness_entries db) <= 30)%nat ->
  select_recent_entries db ≡ₚ map entry_dict (fitness_entries db).
Proof.
  intros Hlen. unfold select_recent_entries.
  rewrite take_ge.
  - apply Permutation_map, sort_newest_Permutation.
  - by rewrite (Permutation_length (sort_newest_Permutation (fitness_entries db))).
Qed.

(** ** The goal row *)

Lemma filter_goal_rows_other (rows : list (string * string)) :
  List.filter (fun kv => String.eqb (fst kv) "calorie_goal")
    (List.filter (fun kv => negb (String.eqb (fst kv) "calorie_goal")) rows) = [].
Proof.
  induction rows as [|[name value] t IH]; simpl; [done|].
  destruct (String.eqb name "calorie_goal") eqn:Hname; simpl; [done|].
  by rewrite Hname.
Qed.

Lemma filter_other_rows_idem (rows : list (string * string)) :
  List.filter (fun kv => negb (String.eqb (fst kv) "calorie_goal"))
    (List.filter (fun kv => negb (String.eqb (fst kv) "calorie_goal")) rows)
  = List.filter (fun kv => negb (String.eqb (fst kv) "calorie_goal")) rows.
Proof.
  induction rows as [|[name value] t IH]; simpl; [done|].
  destruct (String.eqb name "calorie_goal") eqn:Hname; simpl; [done|].
  by rewrite Hname, IH.
Qed.

(** [POST /set_goal] with any non-empty text: afterwards the store has one
    goal row, holding that text as it was posted, whatever goal rows it
    had before; the other settings and the entries are untouched; and the
    next read of the goal gives that text. *)
Theorem set_goal_last_write_wins
    (form : gmap string string) (db : database) (goal : string) :
  form !! "calorie_goal" = Some goal ->
  goal <> "" ->
  exists db',
    local_set_goal form db = (db', redirect_index [("Calorie goal updated.", "success")]) /\
    select_goal db' = Some goal /\
    List.filter (fun kv => String.eqb (fst kv) "calorie_goal") (settings db')
    = [("calorie_goal", goal)] /\
    List.filter (fun kv => negb (String.eqb (fst kv) "calorie_goal")) (settings db')
    = List.filter (fun kv => negb (String.eqb (fst kv) "calorie_goal")) (settings db) /\
    fitness_entries db' = fitness_entries db.
Proof.
  intros Hform Hgoal. unfold local_set_goal, set_goal. rewrite Hform.
  destruct (String.eqb_spec goal "") as [|_]; [done|].
  eexists. split; [done|]. unfold select_goal, replace_goal_row. simpl.
  rewrite !List.filter_app, filter_goal_rows_other, filter_other_rows_idem. simpl.
  by rewrite app_nil_r.
Qed.

(** ** A new row *)

Lemma next_id_above (rows : list entry_row) (r : entry_row) :
  r ∈ rows -> row_id r < next_id rows.
Proof.
  unfold next_id. induction 1 as [r t|r h t _ IH]; simpl; lia.
Qed.

Lemma sort_newest_snoc_newest (rows acc : list entry_row) (x : entry_row) :
  Forall (fun r => newer r x = false) rows ->
  fold_right insert_newest (x :: acc) rows = x :: fold_right insert_newest acc rows.
Proof.
  induction 1 as [|r t Hr _ IH]; simpl; [done|].
  rewrite IH. simpl. by rewrite Hr.
Qed.

Section LocalStoreProofs.

Variable real_affinity : string -> pyval.
Variable integer_affinity : string -> pyval.
Variable int_of_str : string -> Z + string.
Variable float_of_str : string -> option spec_float.
Variable str_of_float : spec_float -> string.

Lemma local_add_entry_rows (form : gmap string string) (db : database) (d : string) :
  form !! "date" = Some d ->
  d <> "" ->
  Forall (fun r => String.ltb d (row_date r) = false) (fitness_entries db) ->
  exists rest,
    local_add_entry real_affinity integer_affinity form db =
    (insert_entry_row real_affinity integer_affinity d
       (form_or_none (form !! "weight")) (form_or_none (form !! "calories"))
       (form_or_none (form !! "steps")) db,
     redirect_index [("Entry added.", "success")]) /\
    select_recent_entries
      (insert_entry_row real_affinity integer_affinity d
         (form_or_none (form !! "weight")) (form_or_none (form !! "calories"))
         (form_or_none (form !! "steps")) db)
    = row (PyStr d)
          (stored_cell real_affinity (form_or_none (form !! "weight")))
          (stored_cell integer_affinity (form_or_none (form !! "calories")))
          (stored_cell integer_affinity (form_or_none (form !! "steps")))
      :: rest.
Proof.
  intros Hform Hd Hdates. unfold local_add_entry, add_entry. rewrite Hform.
  destruct (String.eqb_spec d "") as [|_]; [done|].
  eexists. split; [done|].
  unfold select_recent_entries, insert_entry_row, sort_newest. simpl.
  rewrite fold_right_app. simpl.
  rewrite sort_newest_snoc_newest.
  - simpl. done.
  - apply Forall_forall. intros r Hr. unfold newer. simpl.
    rewrite Forall_forall in Hdates. rewrite (Hdates r Hr). simpl.
    apply andb_false_intro2. apply Z.ltb_ge.
    pose proof (next_id_above (fitness_entries db) r Hr). lia.
Qed.

(** [POST /add] with a date no stored row is later than: the new row,
    with the date as it was posted, is the first row of the next main
    page, before the rows of the same date stored earlier; the settings are
    untouched. *)
Theorem added_entry_on_top (form : gmap string string) (db : database) (d : string) :
  form !! "date" = Some d ->
  d <> "" ->
  Forall (fun r => String.ltb d (row_date r) = false) (fitness_entries db) ->
  exists db',
    local_add_entry real_affinity integer_affinity form db
    = (db', redirect_index [("Entry added.", "success")]) /\
    head (select_recent_entries db')
    = Some (row (PyStr d)
              (stored_cell real_affinity (form_or_none (form !! "weight")))
              (stored_cell integer_affinity (form_or_none (form !! "calories")))
              (stored_cell integer_affinity (form_or_none (form !! "steps")))) /\
    settings db' = settings db /\
    length (fitness_entries db') = S (length (fitness_entries db)).
Proof.
  intros Hform Hd Hdates.
  destruct (local_add_entry_rows form db d Hform Hd Hdates) as (rest & Hadd & Hrows).
  eexists. split; [exact Hadd|]. rewrite Hrows. simpl.
  split; [done|]. split; [done|]. rewrite length_app. simpl. lia.
Qed.

(** ** From the forms to the main page *)

Lemma local_index_unfold (db : database) :
  local_index int_of_str float_of_str str_of_float db =
  match goal_of_row int_of_str (select_goal db) with
  | inr message => Plain ("App error: " +:+ message) 500
  | inl goal =>
      match index_core float_of_str str_of_float (select_recent_entries db) goal with
      | Ok v => Rendered v
      | Raise e => Uncaught e
      end
  end.
Proof. unfold local_index, index. simpl. by destruct (goal_of_row _ _). Qed.


(** [POST /add] does not check that calories are a number.  When a goal is
    stored and SQLite keeps the posted calories as text, a row added for
    the latest date makes the next [GET /] end in an uncaught
    [TypeError]. *)
Theorem text_calories_break_index
    (form : gmap string string) (db : database) (d text goal : string) (n : Z) :
  form !! "date" = Some d ->
  d <> "" ->
  Forall (fun r => String.ltb d (row_date r) = false) (fitness_entries db) ->
  form !! "calories" = Some text ->
  text <> "" ->
  (exists kept, integer_affinity text = PyStr kept) ->
  select_goal db = Some goal ->
  int_of_str goal = inl n ->
  local_index int_of_str float_of_str str_of_float
    (fst (local_add_entry real_affinity integer_affinity form db))
  = Uncaught TypeError.
Proof.
  intros Hform Hd Hdates Hcal Htext [kept Hkept] Hgoal Hint.
  destruct (local_add_entry_rows form db d Hform Hd Hdates) as (rest & Hadd & Hrows).
  rewrite Hadd. simpl. rewrite local_index_unfold, Hrows.
  unfold select_goal, insert_entry_row. simpl. fold (select_goal db).
  rewrite Hgoal. unfold goal_of_row. rewrite Hint.
  unfold index_core, annotate.
  rewrite annotate_against_raise; [done|].
  apply Exists_cons_hd.
  rewrite Hcal. unfold form_or_none, form_blank.
  destruct (String.eqb_spec text "") as [|_]; [done|]. simpl. by rewrite Hkept.
Qed.

End LocalStoreProofs.

(** * The further theorems on the sample data *)

Lemma flags_agree_with_statuses_sample :
  exists out flags,
    annotate sample_entries (Some 2000) = Ok out /\
    build_over_goal_flags sample_str_of_float sample_entries (Some 2000) = Ok flags /\
    (flags !! "2024-01-03" = Some true <->
     exists e', e' ∈ out /\ entry_label sample_str_of_float e' = "2024-01-03" /\
                status_of e' = Some "Over Goal").
Proof.
  destruct (flags_agree_with_statuses sample_str_of_float sample_entries 2000)
    as (out & flags & Hout & Hflags & Hagree).
  - repeat constructor.
  - exists out, flags. split; [exact Hout|]. split; [exact Hflags|].
    exact (Hagree "2024-01-03").
Defined.


Lemma flags_order_independent_sample :
  build_over_goal_flags sample_str_of_float same_day_entries (Some 2000) =
  build_over_goal_flags sample_str_of_float (reverse same_day_entries) (Some 2000).
Proof.
  apply (flags_order_independent sample_str_of_float same_day_entries
           (reverse same_day_entries) (Some 2000)).
  - apply Permutation_swap.
  - repeat constructor.
Defined.

Lemma flags_antitone_in_goal_sample :
  exists flags flags',
    build_over_goal_flags sample_str_of_float sample_entries (Some 2000) = Ok flags /\
    build_over_goal_flags sample_str_of_float sample_entries (Some 2100) = Ok flags' /\
    (forall k, is_Some (flags !! k) <-> is_Some (flags' !! k)) /\
    (forall k, flags' !! k = Some true -> flags !! k = Some true).
Proof.
  apply (flags_antitone_in_goal sample_str_of_float sample_entries 2000 2100).
  - lia.
  - repeat constructor.
Defined.

Lemma date_label_injective_sample : Date 2024 2 29 = Date 2024 2 29.
Proof.
  exact (date_label_injective sample_str_of_float (Date 2024 2 29) (Date 2024 2 29)
           eq_refl eq_refl eq_refl).
Defined.

Lemma missing_config_stops_pages_sample :
  health unit (fun _ => Done tt) (fun _ => Done tt) (fun _ => Done tt)
    (USE_SQLITE {[ "DB_HOST" := "db.example"; "DB_USER" := "" ]})
    {[ "DB_HOST" := "db.example"; "DB_USER" := "" ]}
  = ("DB error", 500).
Proof.
  destruct (missing_config_stops_pages unit (fun _ => Done tt) (fun _ => Done tt)
              (fun _ _ => Done None) (fun _ _ => Done []) (fun _ => Done tt)
              sample_int_of_str sample_float_of_str sample_str_of_float
              {[ "DB_HOST" := "db.example"; "DB_USER" := "" ]})
    as (missing & _ & _ & _ & Hhealth).
  - right. left. reflexivity.
  - exact Hhealth.
Defined.

Lemma index_uncaught_type_error_sample :
  local_index sample_int_of_str sample_float_of_str sample_str_of_float sample_store_text
  = Uncaught TypeError.
Proof.
  apply (index_uncaught_type_error database
           (fun _ => Done sample_store_text) (fun _ => Thrown OtherException "")
           (fun _ c => Done (select_goal c)) (fun _ c => Done (select_recent_entries c))
           (fun _ => Done tt) sample_int_of_str sample_float_of_str sample_str_of_float
           true ∅ sample_store_text "2000" 2000
           (select_recent_entries sample_store_text));
    try reflexivity.
  apply Exists_cons_tl, Exists_cons_hd. reflexivity.
Defined.

Lemma index_without_goal_sample :
  exists v,
    local_index sample_int_of_str sample_float_of_str sample_str_of_float
      sample_store_no_goal = Rendered v /\
    view_calorie_goal v = None /\
    view_over_goal_flags v = ∅ /\
    length (view_entries v) = 2%nat /\
    Forall (fun e' => status_of e' = Some "N/A") (view_entries v).
Proof.
  apply (index_without_goal database
           (fun _ => Done sample_store_no_goal) (fun _ => Thrown OtherException "")
           (fun _ c => Done (select_goal c)) (fun _ c => Done (select_recent_entries c))
           (fun _ => Done tt) sample_int_of_str sample_float_of_str sample_str_of_float
           true ∅ sample_store_no_goal (select_recent_entries sample_store_no_goal));
    try reflexivity.
  repeat constructor.
Defined.

Lemma index_renders_valid_rows_sample :
  exists v,
    local_index sample_int_of_str sample_float_of_str sample_str_of_float sample_store
    = Rendered v /\
    view_calorie_goal v = Some 2000 /\
    annotate (select_recent_entries sample_store) (Some 2000) = Ok (view_entries v) /\
    build_chart_series sample_float_of_str sample_str_of_float
      (select_recent_entries sample_store) = Ok (view_chart v) /\
    build_over_goal_flags sample_str_of_float (select_recent_entries sample_store)
      (Some 2000) = Ok (view_over_goal_flags v).
Proof.
  apply (index_renders_valid_rows database
           (fun _ => Done sample_store) (fun _ => Thrown OtherException "")
           (fun _ c => Done (select_goal c)) (fun _ c => Done (select_recent_entries c))
           (fun _ => Done tt) sample_int_of_str sample_float_of_str sample_str_of_float
           true ∅ sample_store (Some "2000") (Some 2000)
           (select_recent_entries sample_store));
    try reflexivity.
  repeat constructor.
Defined.

Lemma add_entry_empty_field_is_missing_sample :
  add_entry sample_db sample_insert_entry
    (<["steps" := ""]> {[ "date" := "2024-01-05" ]}) ([], None) =
  add_entry sample_db sample_insert_entry
    (delete "steps" {[ "date" := "2024-01-05" ]}) ([], None).
Proof.
  apply (add_entry_empty_field_is_missing sample_db sample_insert_entry "steps").
  right. right. reflexivity.
Defined.

Lemma recent_entries_all_when_few_sample :
  select_recent_entries sample_store ≡ₚ map entry_dict (fitness_entries sample_store).
Proof.
  apply (recent_entries_all_when_few sample_store). simpl. lia.
Defined.

Lemma set_goal_last_write_wins_sample :
  exists db',
    local_set_goal {[ "calorie_goal" := "1800" ]} sample_store
    = (db', redirect_index [("Calorie goal updated.", "success")]) /\
    select_goal db' = Some "1800" /\
    List.filter (fun kv => String.eqb (fst kv) "calorie_goal") (settings db')
    = [("calorie_goal", "1800")] /\
    List.filter (fun kv => negb (String.eqb (fst kv) "calorie_goal")) (settings db')
    = List.filter (fun kv => negb (String.eqb (fst kv) "calorie_goal"))
        (settings sample_store) /\
    fitness_entries db' = fitness_entries sample_store.
Proof.
  apply (set_goal_last_write_wins {[ "calorie_goal" := "1800" ]} sample_store "1800").
  - reflexivity.
  - discriminate.
Defined.

Lemma added_entry_on_top_sample :
  exists db',
    local_add_entry sample_real_affinity sample_integer_affinity
      {[ "date" := "2024-01-03"; "calories" := "1500"; "weight" := "" ]} sample_store
    = (db', redirect_index [("Entry added.", "success")]) /\
    head (select_recent_entries db')
    = Some (row (PyStr "2024-01-03") PyNone (PyInt 1500) PyNone) /\
    settings db' = settings sample_store /\
    length (fitness_entries db') = 3%nat.
Proof.
  exact (added_entry_on_top sample_real_affinity sample_integer_affinity
           {[ "date" := "2024-01-03"; "calories" := "1500"; "weight" := "" ]}
           sample_store "2024-01-03" eq_refl ltac:(discriminate)
           ltac:(repeat constructor)).
Defined.


Lemma text_calories_break_index_sample :
  local_index sample_int_of_str sample_float_of_str sample_str_of_float
    (fst (local_add_entry sample_real_affinity sample_integer_affinity
            {[ "date" := "2024-01-04"; "calories" := "many" ]} sample_store))
  = Uncaught TypeError.
Proof.
  apply (text_calories_break_index sample_real_affinity sample_integer_affinity
           sample_int_of_str sample_float_of_str sample_str_of_float
           {[ "date" := "2024-01-04"; "calories" := "many" ]} sample_store
           "2024-01-04" "many" "2000" 2000).
  - reflexivity.
  - discriminate.
  - repeat constructor.
  - reflexivity.
  - discriminate.
  - exists "many". reflexivity.
  - reflexivity.
  - reflexivity.
Defined.
